(** * bioagent.chemistry_tools.evaluator

    A shallow embedding of [bioagent/chemistry_tools/evaluator.py]: the two
    evaluators [MoleculeSMILESEvaluator] and [MoleculeCaptionEvaluator], the
    metric functions defined next to them, and the evaluation loop both
    share in shape.

    The scientific libraries the module imports (selfies, rdkit, nltk,
    rouge_score, Levenshtein, numpy) are an interface, [Library]: every
    definition below is parametric in it, and the examples instantiate it
    with a small symbolic library whose scorers answer with the text of the
    call they received. *)

From Stdlib Require Import List String Ascii ZArith QArith_base Bool Arith Lia.
From Stdlib Require Import DecimalString.
Import ListNotations.
Local Close Scope Q_scope.
Local Open Scope string_scope.
Local Open Scope list_scope.

(** String concatenation, apart from the [++] of lists. *)
Infix "+++" := String.append (right associativity, at level 60).

(** ** Exceptions and results *)

(** The exceptions that matter to the module: [KeyError] is raised by a
    dictionary subscript, [TypeError] by a call with arguments of the wrong
    shape, and everything a library raises is a [LibraryError]. All three
    are subclasses of [Exception]. *)
Inductive exn : Type :=
| KeyError (key : string)
| TypeError
| LibraryError (name : string).

Inductive result (A : Type) : Type :=
| Ret (a : A)
| Raise (e : exn).

Arguments Ret {A} a.
Arguments Raise {A} e.

Definition bind {A B : Type} (r : result A) (k : A -> result B) : result B :=
  match r with
  | Ret a => k a
  | Raise e => Raise e
  end.

Notation "x <- c ;; k" := (bind c (fun x => k))
  (at level 61, c at next level, right associativity).

Definition returns {A : Type} (r : result A) : Prop := exists a, r = Ret a.

Definition raises {A : Type} (r : result A) : Prop := exists e, r = Raise e.

(** [mapM f xs] runs [f] on the elements of [xs] from left to right and
    stops at the first exception. *)
Fixpoint mapM {A B : Type} (f : A -> result B) (xs : list A) : result (list B) :=
  match xs with
  | [] => Ret []
  | x :: xs' => y <- f x ;; ys <- mapM f xs' ;; Ret (y :: ys)
  end.

(** ** Dictionaries

    A Python [dict] with string keys: keys are unique and keep the order in
    which they were first inserted ([items()] walks them in that order). *)
Module Dict.

Definition t (V : Type) : Type := list (string * V).

Definition empty {V : Type} : t V := [].

(** [d[k]], [None] standing for the [KeyError]. *)
Fixpoint get {V : Type} (k : string) (d : t V) : option V :=
  match d with
  | [] => None
  | (k', v) :: d' => if String.eqb k k' then Some v else get k d'
  end.

(** [d[k] = v]: an existing key keeps its place. *)
Fixpoint set {V : Type} (k : string) (v : V) (d : t V) : t V :=
  match d with
  | [] => [(k, v)]
  | (k', v') :: d' =>
      if String.eqb k k' then (k', v) :: d' else (k', v') :: set k v d'
  end.

Definition keys {V : Type} (d : t V) : list string := map fst d.

(** [d[k]] as an expression. *)
Definition getitem {V : Type} (d : t V) (k : string) : result V :=
  match get k d with
  | Some v => Ret v
  | None => Raise (KeyError k)
  end.

End Dict.

(** ** Python values *)

(** The objects that reach a metric function or a score list. [Mol] is an
    rdkit molecule, [Float] a Python float, [Scores] the dictionary a
    [RougeScorer] returns. *)
Inductive pyval (Mol Float Scores : Type) : Type :=
| VNone
| VBool (b : bool)
| VInt (z : Z)
| VStr (s : string)
| VStrList (l : list string)
| VMol (m : Mol)
| VFloat (x : Float)
| VScores (d : Scores).

Arguments VNone {Mol Float Scores}.
Arguments VBool {Mol Float Scores} b.
Arguments VInt {Mol Float Scores} z.
Arguments VStr {Mol Float Scores} s.
Arguments VStrList {Mol Float Scores} l.
Arguments VMol {Mol Float Scores} m.
Arguments VFloat {Mol Float Scores} x.
Arguments VScores {Mol Float Scores} d.

(** ** The imported libraries *)

Record Library : Type := {
  Mol : Type;
  BitVect : Type;
  SparseIntVect : Type;
  Float : Type;
  Scores : Type;
  (** [selfies.decoder]: raises on a string that is not SELFIES. *)
  sf_decoder : string -> result string;
  (** [Chem.MolFromSmiles]: [None] when the string does not parse. *)
  MolFromSmiles : string -> option Mol;
  (** [Chem.MolToSmiles(m, isomericSmiles=False, canonical=True)]. *)
  MolToSmiles : Mol -> string;
  (** [Chem.MolToInchi], which the module also calls on [None]. *)
  MolToInchi : option Mol -> result string;
  (** [MACCSkeys.GenMACCSKeys], [AllChem.GetMorganFingerprint],
      [Chem.RDKFingerprint]. *)
  GenMACCSKeys : option Mol -> result BitVect;
  GetMorganFingerprint : option Mol -> Z -> result SparseIntVect;
  RDKFingerprint : option Mol -> result BitVect;
  (** [DataStructs.TanimotoSimilarity], on bit vectors and on sparse
      vectors, and [DataStructs.FingerprintSimilarity], which takes the
      metric as an argument. *)
  TanimotoSimilarity : BitVect -> BitVect -> result Float;
  TanimotoSimilaritySparse : SparseIntVect -> SparseIntVect -> result Float;
  FingerprintSimilarity :
    BitVect -> BitVect -> (BitVect -> BitVect -> result Float) -> result Float;
  (** [Levenshtein.distance] on two strings. *)
  lev : string -> string -> Z;
  (** [nltk]'s [sentence_bleu(references, hypothesis, weights)]; [None]
      leaves the weights at the library's default. *)
  sentence_bleu :
    pyval Mol Float Scores -> pyval Mol Float Scores -> option (list Q) ->
    result Float;
  (** [nltk]'s [meteor_score(references, hypothesis)]. *)
  meteor_score :
    pyval Mol Float Scores -> pyval Mol Float Scores -> result Float;
  (** [rouge_scorer.RougeScorer(rouge_types).score(target, prediction)]. *)
  RougeScorer_score :
    list string -> pyval Mol Float Scores -> pyval Mol Float Scores ->
    result Scores;
  (** [numpy.mean] and the text an f-string makes of its result. *)
  np_mean : list (pyval Mol Float Scores) -> result (pyval Mol Float Scores);
  format : pyval Mol Float Scores -> string
}.

Definition value (L : Library) : Type := pyval (Mol L) (Float L) (Scores L).

(** A callable takes its positional arguments as a list. *)
Definition callable (L : Library) : Type := list (value L) -> result (value L).

(** [ScoreTable]: metric name to the list of scores appended so far. *)
Definition table (L : Library) : Type := Dict.t (list (value L)).

Section Evaluator.

Variable L : Library.

Definition is_None (v : value L) : bool :=
  match v with
  | VNone => true
  | _ => false
  end.

Definition of_mol (m : option (Mol L)) : value L :=
  match m with
  | Some m' => VMol m'
  | None => VNone
  end.

(** Calling a function of two molecules, of two strings, of two objects. *)
Definition on_mols (f : option (Mol L) -> option (Mol L) -> result (value L))
  : callable L :=
  fun args =>
    match args with
    | [VMol a; VMol b] => f (Some a) (Some b)
    | [VMol a; VNone] => f (Some a) None
    | [VNone; VMol b] => f None (Some b)
    | [VNone; VNone] => f None None
    | _ => Raise TypeError
    end.

Definition on_strs (f : string -> string -> result (value L)) : callable L :=
  fun args =>
    match args with
    | [VStr a; VStr b] => f a b
    | _ => Raise TypeError
    end.

Definition on_pair (f : value L -> value L -> result (value L)) : callable L :=
  fun args =>
    match args with
    | [a; b] => f a b
    | _ => Raise TypeError
    end.

(** *** Module-level metric functions *)

(** [exact_match]: the bare [except] turns every exception of the two
    [MolToInchi] calls into the final [return 0]. *)
Definition exact_match (ot_smi gt_smi : string) : Z :=
  let m_out := MolFromSmiles L ot_smi in
  let m_gt := MolFromSmiles L gt_smi in
  match MolToInchi L m_out with
  | Raise _ => 0
  | Ret i_out =>
      match MolToInchi L m_gt with
      | Raise _ => 0
      | Ret i_gt => if String.eqb i_out i_gt then 1 else 0
      end
  end%Z.

Definition maccs_similarity (ot_m gt_m : option (Mol L)) : result (Float L) :=
  a <- GenMACCSKeys L gt_m ;;
  b <- GenMACCSKeys L ot_m ;;
  FingerprintSimilarity L a b (TanimotoSimilarity L).

Definition morgan_similarity (ot_m gt_m : option (Mol L)) (radius : Z)
  : result (Float L) :=
  a <- GetMorganFingerprint L gt_m radius ;;
  b <- GetMorganFingerprint L ot_m radius ;;
  TanimotoSimilaritySparse L a b.

Definition rdk_similarity (ot_m gt_m : option (Mol L)) : result (Float L) :=
  a <- RDKFingerprint L gt_m ;;
  b <- RDKFingerprint L ot_m ;;
  FingerprintSimilarity L a b (TanimotoSimilarity L).

Definition as_float (r : result (Float L)) : result (value L) :=
  x <- r ;; Ret (VFloat x).

(** *** The verbose report

    [print("Evaluation results:")], then one line per item of the table;
    a [np.mean] that raises ends the call after the lines already out. *)
Fixpoint print_means (items : list (string * list (value L)))
  : list string * result unit :=
  match items with
  | [] => ([], Ret tt)
  | (metric, values) :: rest =>
      match np_mean L values with
      | Raise e => ([], Raise e)
      | Ret m =>
          let (out, r) := print_means rest in
          ((metric +++ ": " +++ format L m) :: out, r)
      end
  end.

Definition report (verbose : bool) (results : table L)
  : list string * result (table L) :=
  if verbose then
    let (out, r) := print_means results in
    ("Evaluation results:" :: out, _ <- r ;; Ret results)
  else ([], Ret results).

(** [{metric: [] for metric in metrics}] *)
Definition empty_lists (metrics : list string) : table L :=
  fold_left (fun d metric => Dict.set metric [] d) metrics Dict.empty.

End Evaluator.

Arguments is_None {L} v.
Arguments of_mol {L} m.
Arguments on_mols {L} f args.
Arguments on_strs {L} f args.
Arguments on_pair {L} f args.
Arguments as_float {L} r.
Arguments print_means {L} items.
Arguments report {L} verbose results.

(** ** class Evaluator(ABC)

    The interface of both evaluators; [N] is the type of a normalized
    side. *)
Class Evaluator (L : Library) (N : Type) : Type := {
  build_evaluate_tuple : string -> string -> N * N;
  evaluate :
    list string -> list string -> option (list string) -> bool ->
    list string * result (table L)
}.

(** ** The evaluation loop's building blocks *)

(** A [for] loop whose body can raise. *)
Fixpoint foldM {A B : Type} (f : A -> B -> result A) (a : A) (xs : list B)
  : result A :=
  match xs with
  | [] => Ret a
  | x :: xs' => a' <- f a x ;; foldM f a' xs'
  end.

(** [results[metric].append(e)]: the subscript is evaluated first, then the
    argument [e], and then the list grows. *)
Definition append_to {L : Library} (results : table L) (metric : string)
  (e : result (value L)) : result (table L) :=
  scores <- Dict.getitem results metric ;;
  v <- e ;;
  Ret (Dict.set metric (scores ++ [v]) results).

(** [functions[metric](args)] *)
Definition call_metric {L : Library} (functions : Dict.t (callable L))
  (metric : string) (args : list (value L)) : result (value L) :=
  f <- Dict.getitem functions metric ;; f args.

(** ** class MoleculeSMILESEvaluator *)
Module MoleculeSMILESEvaluator.
Section Methods.

Variable L : Library.

Definition _metric_functions : Dict.t (callable L) :=
  [ ("levenshtein", on_strs (fun a b => Ret (VInt (lev L a b))));
    ("exact_match", on_strs (fun a b => Ret (VInt (exact_match L a b))));
    ("bleu", on_pair (fun a b => as_float (sentence_bleu L a b None)));
    ("validity",
      fun args =>
        match args with
        | [smiles] => Ret (VBool (negb (is_None smiles)))
        | _ => Raise TypeError
        end);
    ("maccs_sims", on_mols (fun a b => as_float (maccs_similarity L a b)));
    ("morgan_sims", on_mols (fun a b => as_float (morgan_similarity L a b 2)));
    ("rdk_sims", on_mols (fun a b => as_float (rdk_similarity L a b))) ].

(** [except Exception] swallows whatever the decoder raises. *)
Definition sf_encode (selfies : string) : option string :=
  match sf_decoder L selfies with
  | Ret smiles => Some smiles
  | Raise _ => None
  end.

Definition convert_to_canonical_smiles (smiles : option string)
  : option string :=
  match smiles with
  | None => None
  | Some smiles' =>
      match MolFromSmiles L smiles' with
      | Some molecule => Some (MolToSmiles L molecule)
      | None => None
      end
  end.

Definition build_evaluate_tuple (pred gt : string)
  : option string * option string :=
  let pred_smi := sf_encode pred in
  let gt_smi := sf_encode gt in
  (convert_to_canonical_smiles pred_smi, convert_to_canonical_smiles gt_smi).

Definition default_metrics : list string :=
  ["levenshtein"; "exact_match"; "bleu"; "validity";
   "maccs_sims"; "morgan_sims"; "rdk_sims"].

(** The body of [for metric in metrics], on a normalized pair. *)
Definition evaluate_metric (pred gt : option string) (results : table L)
  (metric : string) : result (table L) :=
  match pred, gt with
  | Some p, Some g =>
      if String.eqb metric "validity" then
        append_to results metric
          (call_metric _metric_functions metric [VStr p])
      else if existsb (String.eqb metric)
                ["maccs_sims"; "morgan_sims"; "rdk_sims"] then
        append_to results metric
          (call_metric _metric_functions metric
             [of_mol (MolFromSmiles L p); of_mol (MolFromSmiles L g)])
      else
        append_to results metric
          (call_metric _metric_functions metric [VStr p; VStr g])
  | _, _ => append_to results metric (Ret (VInt 0))
  end.

(** The body of [for pred, gt in zip(predictions, references)]. *)
Definition evaluate_pair (metrics : list string) (results : table L)
  (pair : string * string) : result (table L) :=
  let (pred, gt) := build_evaluate_tuple (fst pair) (snd pair) in
  foldM (evaluate_metric pred gt) results metrics.

Definition evaluate (predictions references : list string)
  (metrics : option (list string)) (verbose : bool)
  : list string * result (table L) :=
  let metrics :=
    match metrics with
    | None => default_metrics
    | Some ms => ms
    end in
  let results := empty_lists L metrics in
  match foldM (evaluate_pair metrics) results
          (combine predictions references) with
  | Raise e => ([], Raise e)
  | Ret results' => report verbose results'
  end.

End Methods.
End MoleculeSMILESEvaluator.

(** ** class MoleculeCaptionEvaluator *)
Module MoleculeCaptionEvaluator.
Section Methods.

Variable L : Library.

Definition rouge (rouge_types : list string) : callable L :=
  on_pair (fun target prediction =>
             d <- RougeScorer_score L rouge_types target prediction ;;
             Ret (VScores d)).

Definition _metric_functions : Dict.t (callable L) :=
  [ ("bleu-2",
      on_pair (fun a b =>
                 as_float (sentence_bleu L a b (Some [1 # 2; 1 # 2]%Q))));
    ("bleu-4",
      on_pair (fun a b =>
                 as_float
                   (sentence_bleu L a b
                      (Some [1 # 4; 1 # 4; 1 # 4; 1 # 4]%Q))));
    ("rouge-1", rouge ["rouge1"]);
    ("rouge-2", rouge ["rouge2"]);
    ("rouge-l", rouge ["rougeL"]);
    ("meteor", on_pair (fun a b => as_float (meteor_score L a b))) ].

Definition build_evaluate_tuple (pred gt : string) : string * string :=
  (pred, gt).

Definition default_metrics : list string :=
  ["bleu-2"; "bleu-4"; "meteor"; "rouge-1"; "rouge-2"; "rouge-l"].

(** The body of [for metric in metrics]. *)
Definition evaluate_metric (pred gt : string) (results : table L)
  (metric : string) : result (table L) :=
  append_to results metric
    (call_metric _metric_functions metric [VStrList [gt]; VStr pred]).

(** The body of [for pred, gt in zip(predictions, references)]. *)
Definition evaluate_pair (metrics : list string) (results : table L)
  (pair : string * string) : result (table L) :=
  let (pred, gt) := build_evaluate_tuple (fst pair) (snd pair) in
  foldM (evaluate_metric pred gt) results metrics.

Definition evaluate (predictions references : list string)
  (metrics : option (list string)) (verbose : bool)
  : list string * result (table L) :=
  let metrics :=
    match metrics with
    | None => default_metrics
    | Some ms => ms
    end in
  let results := empty_lists L metrics in
  match foldM (evaluate_pair metrics) results
          (combine predictions references) with
  | Raise e => ([], Raise e)
  | Ret results' => report verbose results'
  end.

End Methods.
End MoleculeCaptionEvaluator.

#[export] Instance smiles_evaluator (L : Library)
  : Evaluator L (option string) := {|
  build_evaluate_tuple := MoleculeSMILESEvaluator.build_evaluate_tuple L;
  evaluate := MoleculeSMILESEvaluator.evaluate L
|}.

#[export] Instance caption_evaluator (L : Library) : Evaluator L string := {|
  build_evaluate_tuple := MoleculeCaptionEvaluator.build_evaluate_tuple;
  evaluate := MoleculeCaptionEvaluator.evaluate L
|}.

(** ** What one pass of the loops appends

    [smiles pred gt metric] is the value the structure evaluator's body of
    [for metric in metrics] hands to [append] on a normalized pair (or the
    exception that ends the call), [smiles_pair] the same from the raw
    pair, and [caption_pair] the caption evaluator's. *)
Module Score.
Section Score.

Variable L : Library.

Definition smiles (pred gt : option string) (metric : string)
  : result (value L) :=
  match pred, gt with
  | Some p, Some g =>
      if String.eqb metric "validity" then
        call_metric (MoleculeSMILESEvaluator._metric_functions L) metric
          [VStr p]
      else if existsb (String.eqb metric)
                ["maccs_sims"; "morgan_sims"; "rdk_sims"] then
        call_metric (MoleculeSMILESEvaluator._metric_functions L) metric
          [of_mol (MolFromSmiles L p); of_mol (MolFromSmiles L g)]
      else
        call_metric (MoleculeSMILESEvaluator._metric_functions L) metric
          [VStr p; VStr g]
  | _, _ => Ret (VInt 0)
  end.

Definition smiles_pair (pair : string * string) (metric : string)
  : result (value L) :=
  let (pred, gt) :=
    MoleculeSMILESEvaluator.build_evaluate_tuple L (fst pair) (snd pair) in
  smiles pred gt metric.

Definition caption_pair (pair : string * string) (metric : string)
  : result (value L) :=
  call_metric (MoleculeCaptionEvaluator._metric_functions L) metric
    [VStrList [snd pair]; VStr (fst pair)].

(** The scores among [vs] that belong to [k] when [vs] lists one score
    per entry of [metrics]. *)
Definition picks (k : string) (metrics : list string) (vs : list (value L))
  : list (value L) :=
  map snd (filter (fun mv => String.eqb k (fst mv)) (combine metrics vs)).

(** The two nested loops over a fresh table, with [compute pair metric] for
    what the inner body appends. *)
Definition run (compute : string * string -> string -> result (value L))
  (metrics : list string) (pairs : list (string * string))
  : result (table L) :=
  foldM (fun r pair =>
           foldM (fun r' m => append_to r' m (compute pair m)) r metrics)
    (empty_lists L metrics) pairs.

(** The metrics an [evaluate] call works with. *)
Definition requested (default : list string) (metrics : option (list string))
  : list string :=
  match metrics with
  | None => default
  | Some ms => ms
  end.

End Score.

Arguments picks {L} k metrics vs.
Arguments run {L} compute metrics pairs.

End Score.

(** Python's [==] between an integer or boolean score and an integer:
    [True == 1] and [False == 0]. *)
Definition eq_int {L : Library} (v : value L) (z : Z) : bool :=
  match v with
  | VInt z' => Z.eqb z' z
  | VBool b => Z.eqb (if b then 1 else 0) z
  | _ => false
  end.

(** ** A symbolic library

    Molecules and fingerprints are the text they were made from and every
    score is the text of the call that computed it, so a result shows which
    function ran on which arguments. The decoder strips the brackets of a
    SELFIES string and rejects one with a [?]; a SMILES with an [X] does
    not parse; the empty string parses to the empty molecule; the n-gram
    scorer raises on an empty sequence of references and the rouge scorer
    on an empty prediction. *)
Module Symbolic.

Fixpoint contains (c : ascii) (s : string) : bool :=
  match s with
  | EmptyString => false
  | String c' s' => Ascii.eqb c c' || contains c s'
  end.

Fixpoint strip_brackets (s : string) : string :=
  match s with
  | EmptyString => EmptyString
  | String c s' =>
      if Ascii.eqb c "["%char || Ascii.eqb c "]"%char then strip_brackets s'
      else String c (strip_brackets s')
  end.

(** A stand-in for the edit distance: the positions at which two strings
    differ, counting the surplus of the longer one. *)
Fixpoint mismatches (a b : string) : nat :=
  match a, b with
  | EmptyString, _ => String.length b
  | _, EmptyString => String.length a
  | String c a', String c' b' =>
      (if Ascii.eqb c c' then 0 else 1) + mismatches a' b'
  end.

Definition val : Type := pyval string string string.

Definition repr (v : val) : string :=
  match v with
  | VNone => "None"
  | VBool b => if b then "True" else "False"
  | VInt z => NilZero.string_of_int (Z.to_int z)
  | VStr s => "'" +++ s +++ "'"
  | VStrList l =>
      "[" +++ String.concat ", " (map (fun s => "'" +++ s +++ "'") l) +++ "]"
  | VMol m => "Mol(" +++ m +++ ")"
  | VFloat x => x
  | VScores d => "{" +++ d +++ "}"
  end.

Definition call2 (f a b : string) : string :=
  f +++ "(" +++ a +++ ", " +++ b +++ ")".

Definition need_mol (f : string) (m : option string) : result string :=
  match m with
  | Some m' => Ret (f +++ "(" +++ m' +++ ")")
  | None => Raise (LibraryError "ArgumentError")
  end.

Definition is_scores (v : val) : bool :=
  match v with
  | VScores _ => true
  | _ => false
  end.

Definition lib : Library := {|
  Mol := string;
  BitVect := string;
  SparseIntVect := string;
  Float := string;
  Scores := string;
  sf_decoder := fun s =>
    if contains "?"%char s then Raise (LibraryError "DecoderError")
    else Ret (strip_brackets s);
  MolFromSmiles := fun s => if contains "X"%char s then None else Some s;
  MolToSmiles := fun m => m;
  MolToInchi := need_mol "InChI";
  GenMACCSKeys := need_mol "MACCS";
  GetMorganFingerprint := fun m _ => need_mol "Morgan" m;
  RDKFingerprint := need_mol "RDK";
  TanimotoSimilarity := fun a b => Ret (call2 "Tanimoto" a b);
  TanimotoSimilaritySparse := fun a b => Ret (call2 "Tanimoto" a b);
  FingerprintSimilarity := fun a b metric => metric a b;
  lev := fun a b => Z.of_nat (mismatches a b);
  sentence_bleu := fun refs hyp _ =>
    match refs with
    | VStr EmptyString | VStrList [] => Raise (LibraryError "ScorerError")
    | _ => Ret (call2 "sentence_bleu" (repr refs) (repr hyp))
    end;
  meteor_score := fun refs hyp =>
    Ret (call2 "meteor_score" (repr refs) (repr hyp));
  RougeScorer_score := fun types target prediction =>
    match prediction with
    | VStr EmptyString => Raise (LibraryError "ScorerError")
    | _ =>
        Ret (String.concat "," types +++ ": "
             +++ call2 "score" (repr target) (repr prediction))
    end;
  np_mean := fun values =>
    if existsb is_scores values then Raise TypeError
    else
      Ret (VFloat ("mean(" +++ String.concat ", " (map repr values) +++ ")"));
  format := repr
|}.

End Symbolic.

(** ** scripts/llava_build_pretrain_dataset.py *)
Module LlavaBuildPretrainDataset.
Section Convo.

(** [ROLE_ASSISTANT] and [ROLE_USER] come from [multi_token.constants]. *)
Variables ROLE_ASSISTANT ROLE_USER : string.

(** A message of a conversation, before or after the conversion: a JSON
    object with string values. *)
Definition message : Type := Dict.t string.

(** The body of the loop: the dictionary display evaluates the role, that
    is the [from] entry of [m] and then the subscript of the two-entry
    table, before the [value] entry of [m]. *)
Definition convert_message (m : message) : result message :=
  speaker <- Dict.getitem m "from" ;;
  role <- Dict.getitem [("gpt", ROLE_ASSISTANT); ("human", ROLE_USER)] speaker ;;
  content <- Dict.getitem m "value" ;;
  Ret [("role", role); ("content", content)].

Definition _convert_convo (convo : list message) : result (list message) :=
  foldM (fun msgs m => msg <- convert_message m ;; Ret (msgs ++ [msg]))
    [] convo.

End Convo.
End LlavaBuildPretrainDataset.

(** ** bioagent/data_tools.py: [parse_chat_output]

    A Python string is the sequence of its code points; the ones of this
    model are below 256. *)
Module DataTools.

Definition newline : ascii := "010"%char.

Definition space : ascii := " "%char.

(** [str.isspace] of one character: the code points 9 to 13, 28 to 32, 133
    and 160. *)
Definition isspace (c : ascii) : bool :=
  let n := nat_of_ascii c in
  (Nat.leb 9 n && Nat.leb n 13) || (Nat.leb 28 n && Nat.leb n 32)
  || Nat.eqb n 133 || Nat.eqb n 160.

Fixpoint lstrip (s : string) : string :=
  match s with
  | EmptyString => EmptyString
  | String c s' => if isspace c then lstrip s' else s
  end.

Fixpoint rstrip (s : string) : string :=
  match s with
  | EmptyString => EmptyString
  | String c s' =>
      match rstrip s' with
      | EmptyString => if isspace c then EmptyString else String c EmptyString
      | r => String c r
      end
  end.

(** [s.strip()] *)
Definition strip (s : string) : string := rstrip (lstrip s).

(** What is left of [s] after the literal [p], if [s] starts with it. *)
Fixpoint strip_prefix (p s : string) : option string :=
  match p with
  | EmptyString => Some s
  | String a p' =>
      match s with
      | EmptyString => None
      | String b s' => if Ascii.eqb a b then strip_prefix p' s' else None
      end
  end.

(** A match, at the start of [s], of the marker followed by a newline or a
    space: what follows it. *)
Definition after_marker (marker s : string) : option string :=
  match strip_prefix marker s with
  | Some (String c rest) =>
      if Ascii.eqb c newline || Ascii.eqb c space then Some rest else None
  | _ => None
  end.

(** The lazy group of any characters that a newline must follow: the text
    before the first newline. *)
Fixpoint until_newline (s : string) : option string :=
  match s with
  | EmptyString => None
  | String c s' =>
      if Ascii.eqb c newline then Some EmptyString
      else option_map (String c) (until_newline s')
  end.

(** Group 1 of the search for [pattern_thoughts]: the marker [Thoughts:],
    a newline or a space, the lazy group, a newline; the match is the one
    at the leftmost position at which the whole pattern matches. *)
Fixpoint search_thoughts (s : string) : option string :=
  match s with
  | EmptyString => None
  | String _ s' =>
      match after_marker "Thoughts:" s with
      | Some rest =>
          match until_newline rest with
          | Some group => Some group
          | None => search_thoughts s'
          end
      | None => search_thoughts s'
      end
  end.

(** Group 1 of the search for [pattern_output]: the marker [Output:], a
    newline or a space, and a greedy group of any characters, which takes
    all that follows the leftmost match of the marker. *)
Fixpoint search_output (s : string) : option string :=
  match s with
  | EmptyString => None
  | String _ s' =>
      match after_marker "Output:" s with
      | Some rest => Some rest
      | None => search_output s'
      end
  end.

(** [ValueError] is raised by the function itself; [AttributeError] by
    [.group] on the [None] of a search that found nothing. *)
Inductive error : Type :=
| ValueError (message : string)
| AttributeError.

(** The dictionary returned has the keys [output] and [thoughts]; the
    value [None] of a field is Python's [None]. *)
Definition parse_chat_output (output style : string)
  : error + Dict.t (option string) :=
  if String.eqb style "base" then
    let thoughts :=
      match search_thoughts output with
      | Some group => Some (strip group)
      | None => None
      end in
    match search_output output with
    | Some group => inr [("output", Some (strip group)); ("thoughts", thoughts)]
    | None => inl AttributeError
    end
  else inl (ValueError ("Invalid style: " +++ style)).

(** [p in s] for a literal [p]. *)
Fixpoint contains_text (p s : string) : bool :=
  match strip_prefix p s with
  | Some _ => true
  | None =>
      match s with
      | EmptyString => false
      | String _ s' => contains_text p s'
      end
  end.

End DataTools.


(** * Facts *)

(** ** Results *)

Lemma bind_Ret_inv {A B : Type} (r : result A) (k : A -> result B) (b : B) :
  bind r k = Ret b -> exists a, r = Ret a /\ k a = Ret b.
Proof.
  destruct r as [a | e]; simpl; intros H.
  - exists a. split; [reflexivity | exact H].
  - discriminate H.
Qed.


Lemma returns_not_raises {A : Type} (r : result A) : returns r -> ~ raises r.
Proof.
  intros [a Ha] [e He]. rewrite Ha in He. discriminate He.
Qed.

Lemma mapM_Forall2 {A B : Type} (f : A -> result B) (xs : list A) :
  forall ys, mapM f xs = Ret ys <-> Forall2 (fun x y => f x = Ret y) xs ys.
Proof.
  induction xs as [| x xs IH]; simpl; intros ys; split; intros H.
  - injection H as <-. constructor.
  - inversion H. reflexivity.
  - apply bind_Ret_inv in H. destruct H as (y & Hy & H).
    apply bind_Ret_inv in H. destruct H as (ys' & Hys' & H).
    injection H as <-. constructor; [exact Hy | apply IH, Hys'].
  - inversion H as [| x' y xs' ys' Hy Hrest]; subst.
    rewrite Hy. simpl. apply IH in Hrest. rewrite Hrest. reflexivity.
Qed.

Lemma mapM_returns {A B : Type} (f : A -> result B) (xs : list A) :
  returns (mapM f xs) <-> forall x, In x xs -> returns (f x).
Proof.
  induction xs as [| x xs IH]; simpl.
  - split; [intros _ x [] | intros _; exists []; reflexivity].
  - split.
    + intros [ys H] x' [<- | Hin].
      * apply bind_Ret_inv in H. destruct H as (y & Hy & _). exists y. exact Hy.
      * apply bind_Ret_inv in H. destruct H as (y & _ & H).
        apply bind_Ret_inv in H. destruct H as (ys' & Hys' & _).
        apply IH; [exists ys'; exact Hys' | exact Hin].
    + intros H. destruct (H x (or_introl eq_refl)) as [y Hy].
      destruct (proj2 IH (fun x' Hx' => H x' (or_intror Hx'))) as [ys Hys].
      exists (y :: ys). rewrite Hy. simpl. rewrite Hys. reflexivity.
Qed.

Lemma foldM_ext {A B : Type} (f g : A -> B -> result A) (xs : list B) :
  (forall a x, f a x = g a x) -> forall a, foldM f a xs = foldM g a xs.
Proof.
  intros H. induction xs as [| x xs IH]; simpl; intros a; [reflexivity |].
  rewrite H. destruct (g a x) as [a' | e]; simpl; [apply IH | reflexivity].
Qed.

(** ** Dictionaries *)
Section DictFacts.

Context {V : Type}.

Lemma get_set (k m : string) (v : V) (d : Dict.t V) :
  Dict.get k (Dict.set m v d) = if String.eqb k m then Some v else Dict.get k d.
Proof.
  induction d as [| [k' v'] d IH]; simpl.
  - reflexivity.
  - destruct (String.eqb m k') eqn:Hmk; simpl.
    + apply String.eqb_eq in Hmk. subst k'.
      destruct (String.eqb k m); reflexivity.
    + destruct (String.eqb k k') eqn:Hkk.
      * apply String.eqb_eq in Hkk. subst k'.
        rewrite String.eqb_sym, Hmk. reflexivity.
      * exact IH.
Qed.

Lemma keys_set_present (m : string) (v : V) (d : Dict.t V) :
  Dict.get m d <> None -> Dict.keys (Dict.set m v d) = Dict.keys d.
Proof.
  unfold Dict.keys. induction d as [| [k' v'] d IH]; simpl; intros H.
  - contradiction H. reflexivity.
  - destruct (String.eqb m k'); simpl; [reflexivity |].
    f_equal. apply IH, H.
Qed.

Lemma keys_set_absent (m : string) (v : V) (d : Dict.t V) :
  Dict.get m d = None -> Dict.keys (Dict.set m v d) = Dict.keys d ++ [m].
Proof.
  unfold Dict.keys. induction d as [| [k' v'] d IH]; simpl; intros H.
  - reflexivity.
  - destruct (String.eqb m k'); simpl; [discriminate H |].
    f_equal. apply IH, H.
Qed.

Lemma get_None_keys (k : string) (d : Dict.t V) :
  Dict.get k d = None <-> ~ In k (Dict.keys d).
Proof.
  unfold Dict.keys. induction d as [| [k' v'] d IH]; simpl.
  - split; [intros _ [] | reflexivity].
  - destruct (String.eqb k k') eqn:Hkk.
    + apply String.eqb_eq in Hkk. subst k'.
      split; [discriminate | intros H; contradiction H; left; reflexivity].
    + apply String.eqb_neq in Hkk. rewrite IH. split.
      * intros H [Heq | Hin]; [apply Hkk; symmetry; exact Heq | exact (H Hin)].
      * intros H Hin. apply H. right. exact Hin.
Qed.

Lemma NoDup_keys_set (m : string) (v : V) (d : Dict.t V) :
  NoDup (Dict.keys d) -> NoDup (Dict.keys (Dict.set m v d)).
Proof.
  intros Hnd. destruct (Dict.get m d) as [v0 |] eqn:Hget.
  - rewrite keys_set_present; [exact Hnd | rewrite Hget; discriminate].
  - rewrite keys_set_absent by exact Hget.
    apply NoDup_rev in Hnd. rewrite <- (rev_involutive (_ ++ _)).
    apply NoDup_rev. rewrite rev_app_distr. simpl. constructor.
    + rewrite <- in_rev. apply get_None_keys, Hget.
    + exact Hnd.
Qed.

End DictFacts.

(** ** The table of empty lists *)
Section EmptyLists.

Variable L : Library.

Lemma get_fold_set (metrics : list string) :
  forall (d : table L) (k : string),
    Dict.get k (fold_left (fun d' m => Dict.set m [] d') metrics d) =
    if existsb (String.eqb k) metrics then Some [] else Dict.get k d.
Proof.
  induction metrics as [| m ms IH]; simpl; intros d k; [reflexivity |].
  rewrite IH, get_set.
  destruct (String.eqb k m); simpl; [| reflexivity].
  destruct (existsb (String.eqb k) ms); reflexivity.
Qed.

Lemma existsb_eqb_In (k : string) (metrics : list string) :
  existsb (String.eqb k) metrics = true <-> In k metrics.
Proof.
  rewrite existsb_exists. split.
  - intros (m & Hin & Heq). apply String.eqb_eq in Heq. subst m. exact Hin.
  - intros Hin. exists k. split; [exact Hin | apply String.eqb_refl].
Qed.

Lemma get_empty_lists_in (metrics : list string) (k : string) :
  In k metrics -> Dict.get k (empty_lists L metrics) = Some [].
Proof.
  intros Hin. unfold empty_lists. rewrite get_fold_set.
  apply existsb_eqb_In in Hin. rewrite Hin. reflexivity.
Qed.

Lemma get_empty_lists_out (metrics : list string) (k : string) :
  ~ In k metrics -> Dict.get k (empty_lists L metrics) = None.
Proof.
  intros Hout. unfold empty_lists. rewrite get_fold_set.
  destruct (existsb (String.eqb k) metrics) eqn:Hex; [| reflexivity].
  apply existsb_eqb_In in Hex. contradiction.
Qed.

Lemma NoDup_keys_fold_set (metrics : list string) :
  forall d : table L,
    NoDup (Dict.keys d) ->
    NoDup (Dict.keys (fold_left (fun d' m => Dict.set m [] d') metrics d)).
Proof.
  induction metrics as [| m ms IH]; simpl; intros d Hnd; [exact Hnd |].
  apply IH, NoDup_keys_set, Hnd.
Qed.

Lemma NoDup_keys_empty_lists (metrics : list string) :
  NoDup (Dict.keys (empty_lists L metrics)).
Proof.
  unfold empty_lists. apply NoDup_keys_fold_set. constructor.
Qed.

End EmptyLists.

(** ** One loop shape for both evaluators

    Each evaluator's inner loop appends [compute metric] for the metrics in
    turn, and its outer loop does so for the pairs in turn. The table that
    comes out holds, under every key, the scores that were computed for it
    in the order they were computed. *)
Section Loop.

Variable L : Library.

Lemma append_to_present (results : table L) (metric : string)
  (scores : list (value L)) (e : result (value L)) :
  Dict.get metric results = Some scores ->
  append_to results metric e =
  (v <- e ;; Ret (Dict.set metric (scores ++ [v]) results)).
Proof.
  intros H. unfold append_to, Dict.getitem. rewrite H. reflexivity.
Qed.

Lemma picks_cons (k m : string) (ms : list string) (v : value L)
  (vs : list (value L)) :
  Score.picks k (m :: ms) (v :: vs) =
  if String.eqb k m then v :: Score.picks k ms vs else Score.picks k ms vs.
Proof.
  unfold Score.picks. simpl. destruct (String.eqb k m); reflexivity.
Qed.

Lemma picks_repeat (compute : string -> result (value L)) (k : string)
  (v : value L) (metrics : list string) :
  compute k = Ret v ->
  forall vs, mapM compute metrics = Ret vs ->
    Score.picks k metrics vs = repeat v (count_occ string_dec metrics k).
Proof.
  intros Hk. induction metrics as [| m ms IH]; simpl; intros vs H.
  - injection H as <-. reflexivity.
  - apply bind_Ret_inv in H. destruct H as (y & Hy & H).
    apply bind_Ret_inv in H. destruct H as (ys & Hys & H).
    injection H as <-. rewrite picks_cons.
    destruct (string_dec m k) as [-> | Hne].
    + rewrite String.eqb_refl. simpl. rewrite (IH _ Hys).
      rewrite Hk in Hy. injection Hy as ->. reflexivity.
    + apply not_eq_sym in Hne. apply String.eqb_neq in Hne. rewrite Hne.
      apply IH, Hys.
Qed.

Lemma foldM_metrics (compute : string -> result (value L))
  (metrics : list string) :
  forall d : table L,
    (forall m, In m metrics -> Dict.get m d <> None) ->
    match mapM compute metrics with
    | Raise e =>
        foldM (fun r m => append_to r m (compute m)) d metrics = Raise e
    | Ret vs =>
        exists d',
          foldM (fun r m => append_to r m (compute m)) d metrics = Ret d' /\
          Dict.keys d' = Dict.keys d /\
          forall k,
            Dict.get k d' =
            option_map (fun l => l ++ Score.picks k metrics vs) (Dict.get k d)
    end.
Proof.
  induction metrics as [| m ms IH]; intros d Hkeys.
  - simpl. exists d. repeat split. intros k. unfold Score.picks. simpl.
    destruct (Dict.get k d) as [l |]; simpl; [rewrite app_nil_r |]; reflexivity.
  - simpl.
    destruct (Dict.get m d) as [l |] eqn:Hm;
      [| contradiction (Hkeys m (or_introl eq_refl) Hm)].
    rewrite append_to_present with (scores := l) by exact Hm.
    destruct (compute m) as [v | e]; simpl; [| reflexivity].
    assert (Hkeys' : forall m', In m' ms ->
              Dict.get m' (Dict.set m (l ++ [v]) d) <> None).
    { intros m' Hin. rewrite get_set. destruct (String.eqb m' m);
        [discriminate | apply Hkeys; right; exact Hin]. }
    specialize (IH _ Hkeys').
    destruct (mapM compute ms) as [vs | e]; simpl; [| exact IH].
    destruct IH as (d' & Hd' & Hk' & Hget). exists d'.
    split; [exact Hd' |]. split.
    + rewrite Hk'. apply keys_set_present. rewrite Hm. discriminate.
    + intros k. rewrite Hget, get_set, picks_cons.
      destruct (String.eqb k m) eqn:Hkm.
      * apply String.eqb_eq in Hkm. subst k. rewrite Hm. simpl.
        rewrite <- app_assoc. reflexivity.
      * reflexivity.
Qed.

Lemma foldM_pairs (compute : string * string -> string -> result (value L))
  (metrics : list string) (pairs : list (string * string)) :
  forall d : table L,
    (forall m, In m metrics -> Dict.get m d <> None) ->
    match mapM (fun pair => mapM (compute pair) metrics) pairs with
    | Raise e =>
        foldM (fun r pair =>
                 foldM (fun r' m => append_to r' m (compute pair m)) r metrics)
          d pairs = Raise e
    | Ret vss =>
        exists d',
          foldM (fun r pair =>
                   foldM (fun r' m => append_to r' m (compute pair m)) r metrics)
            d pairs = Ret d' /\
          Dict.keys d' = Dict.keys d /\
          forall k,
            Dict.get k d' =
            option_map (fun l => l ++ flat_map (Score.picks k metrics) vss)
              (Dict.get k d)
    end.
Proof.
  induction pairs as [| pair pairs IH]; intros d Hkeys.
  - simpl. exists d. repeat split. intros k.
    destruct (Dict.get k d) as [l |]; simpl; [rewrite app_nil_r |]; reflexivity.
  - simpl. pose proof (foldM_metrics (compute pair) metrics d Hkeys) as Hin.
    destruct (mapM (compute pair) metrics) as [vs | e]; simpl;
      [| rewrite Hin; reflexivity].
    destruct Hin as (d1 & Hd1 & Hk1 & Hget1). rewrite Hd1. simpl.
    assert (Hkeys1 : forall m, In m metrics -> Dict.get m d1 <> None).
    { intros m Hm. rewrite Hget1. specialize (Hkeys m Hm).
      destruct (Dict.get m d); [discriminate | contradiction Hkeys; reflexivity]. }
    specialize (IH d1 Hkeys1).
    destruct (mapM (fun pair0 => mapM (compute pair0) metrics) pairs)
      as [vss | e]; simpl; [| exact IH].
    destruct IH as (d' & Hd' & Hk' & Hget). exists d'.
    split; [exact Hd' |]. split; [rewrite Hk'; exact Hk1 |].
    intros k. rewrite Hget, Hget1.
    destruct (Dict.get k d) as [l |]; simpl; [| reflexivity].
    rewrite <- app_assoc. reflexivity.
Qed.

Lemma flat_map_picks (compute : string * string -> string -> result (value L))
  (metrics : list string) (k : string) :
  In k metrics ->
  forall pairs vss,
    Forall2 (fun pair vs => mapM (compute pair) metrics = Ret vs) pairs vss ->
    exists vals,
      Forall2 (fun pair v => compute pair k = Ret v) pairs vals /\
      flat_map (Score.picks k metrics) vss =
      flat_map (fun v => repeat v (count_occ string_dec metrics k)) vals.
Proof.
  intros Hk pairs vss HF.
  induction HF as [| pair vs pairs vss Hvs _ IH].
  - exists []. split; [constructor | reflexivity].
  - destruct IH as (vals & Hvals & Heq).
    assert (Hret : returns (compute pair k)).
    { apply (proj1 (mapM_returns (compute pair) metrics));
        [exists vs; exact Hvs | exact Hk]. }
    destruct Hret as [v Hv]. exists (v :: vals). split.
    + constructor; assumption.
    + simpl. rewrite Heq. f_equal. eapply picks_repeat; eassumption.
Qed.

Lemma scoring_raises (compute : string * string -> string -> result (value L))
  (metrics : list string) (pairs : list (string * string)) (e : exn) :
  mapM (fun pair => mapM (compute pair) metrics) pairs = Raise e ->
  Score.run compute metrics pairs = Raise e.
Proof.
  intros H. unfold Score.run.
  pose proof (foldM_pairs compute metrics pairs (empty_lists L metrics)) as HF.
  rewrite H in HF. apply HF. intros m Hm.
  rewrite get_empty_lists_in by exact Hm. discriminate.
Qed.

Lemma scoring_table (compute : string * string -> string -> result (value L))
  (metrics : list string) (pairs : list (string * string)) (t : table L) :
  Score.run compute metrics pairs = Ret t ->
  NoDup (Dict.keys t) /\
  (forall k, ~ In k metrics -> Dict.get k t = None) /\
  forall k, In k metrics ->
    exists vals,
      Forall2 (fun pair v => compute pair k = Ret v) pairs vals /\
      Dict.get k t =
      Some (flat_map (fun v => repeat v (count_occ string_dec metrics k)) vals).
Proof.
  unfold Score.run. intros Hrun.
  pose proof (foldM_pairs compute metrics pairs (empty_lists L metrics)) as HF.
  assert (Hkeys : forall m, In m metrics ->
            Dict.get m (empty_lists L metrics) <> None).
  { intros m Hm. rewrite get_empty_lists_in by exact Hm. discriminate. }
  specialize (HF Hkeys).
  destruct (mapM (fun pair => mapM (compute pair) metrics) pairs)
    as [vss | e] eqn:Hmap.
  - destruct HF as (t' & Ht' & Hk & Hget). rewrite Hrun in Ht'.
    injection Ht' as <-. split; [| split].
    + rewrite Hk. apply NoDup_keys_empty_lists.
    + intros k Hout. rewrite Hget, get_empty_lists_out by exact Hout.
      reflexivity.
    + intros k Hin. apply mapM_Forall2 in Hmap.
      destruct (@flat_map_picks compute metrics k Hin pairs vss Hmap)
        as (vals & Hvals & Heq).
      exists vals. split; [exact Hvals |].
      rewrite Hget, get_empty_lists_in by exact Hin. simpl.
      rewrite Heq. reflexivity.
  - rewrite Hrun in HF. discriminate HF.
Qed.

Lemma scoring_returns (compute : string * string -> string -> result (value L))
  (metrics : list string) (pairs : list (string * string)) :
  returns (Score.run compute metrics pairs) <->
  forall pair m, In pair pairs -> In m metrics -> returns (compute pair m).
Proof.
  unfold Score.run.
  pose proof (foldM_pairs compute metrics pairs (empty_lists L metrics)) as HF.
  assert (Hkeys : forall m, In m metrics ->
            Dict.get m (empty_lists L metrics) <> None).
  { intros m Hm. rewrite get_empty_lists_in by exact Hm. discriminate. }
  specialize (HF Hkeys).
  assert (Hmap : returns (mapM (fun pair => mapM (compute pair) metrics) pairs)
                 <-> forall pair m, In pair pairs -> In m metrics ->
                       returns (compute pair m)).
  { rewrite mapM_returns. split.
    - intros H pair m Hp Hm. apply (proj1 (mapM_returns _ _) (H pair Hp) m Hm).
    - intros H pair Hp. apply mapM_returns. intros m Hm. apply H; assumption. }
  rewrite <- Hmap.
  destruct (mapM (fun pair => mapM (compute pair) metrics) pairs) as [vss | e].
  - destruct HF as (t & Ht & _). rewrite Ht.
    split; intros _; eexists; reflexivity.
  - rewrite HF. split; intros [x Hx]; discriminate Hx.
Qed.

Lemma flat_map_repeat_length {A : Type} (n : nat) (vals : list A) :
  List.length (flat_map (fun v => repeat v n) vals) = n * List.length vals.
Proof.
  induction vals as [| v vals IH]; simpl.
  - lia.
  - rewrite length_app, repeat_length, IH. lia.
Qed.

Lemma flat_map_repeat_one {A : Type} (vals : list A) :
  flat_map (fun v => repeat v 1) vals = vals.
Proof.
  induction vals as [| v vals IH]; simpl; [reflexivity |].
  f_equal. exact IH.
Qed.

Lemma count_occ_NoDup_In (metrics : list string) (k : string) :
  NoDup metrics -> In k metrics -> count_occ string_dec metrics k = 1.
Proof.
  intros Hnd Hin.
  pose proof (proj1 (NoDup_count_occ string_dec metrics) Hnd k) as Hle.
  pose proof (proj1 (count_occ_In string_dec metrics k) Hin) as Hpos.
  lia.
Qed.

End Loop.

Lemma mapM_first_raise {A B : Type} (f : A -> result B) (xs ys : list A)
  (x : A) (e : exn) :
  (forall a, In a xs -> returns (f a)) ->
  f x = Raise e ->
  mapM f (xs ++ x :: ys) = Raise e.
Proof.
  intros Hxs Hx. induction xs as [| a xs IH]; simpl.
  - rewrite Hx. reflexivity.
  - destruct (Hxs a (or_introl eq_refl)) as [b Hb]. rewrite Hb. simpl.
    rewrite IH; [reflexivity | intros a' Ha'; apply Hxs; right; exact Ha'].
Qed.


(** ** The verbose report *)
Section Report.

Variable L : Library.

Lemma report_Ret (verbose : bool) (t t' : table L) (out : list string) :
  report verbose t = (out, Ret t') -> t' = t.
Proof.
  unfold report. destruct verbose.
  - destruct (print_means t) as [out' [[] | e]]; simpl; intros H.
    + injection H as _ H. symmetry. exact H.
    + discriminate H.
  - intros H. injection H as _ H. symmetry. exact H.
Qed.

Lemma print_means_total (items : list (string * list (value L))) :
  (forall vs, returns (np_mean L vs)) ->
  exists out, print_means items = (out, Ret tt).
Proof.
  intros Hmean. induction items as [| [metric values] items IH]; simpl.
  - exists []. reflexivity.
  - destruct (Hmean values) as [m Hm]. rewrite Hm.
    destruct IH as [out Hout]. rewrite Hout. eexists. reflexivity.
Qed.

Lemma report_total (verbose : bool) (t : table L) :
  (verbose = true -> forall vs, returns (np_mean L vs)) ->
  exists out, report verbose t = (out, Ret t).
Proof.
  unfold report. destruct verbose; intros Hmean.
  - destruct (print_means_total t (Hmean eq_refl)) as [out Hout].
    rewrite Hout. simpl. eexists. reflexivity.
  - exists []. reflexivity.
Qed.

End Report.

(** ** The two [evaluate] methods as instances of the loop *)
Section Instances.

Variable L : Library.

Lemma smiles_evaluate_metric_score (pred gt : option string)
  (results : table L) (metric : string) :
  MoleculeSMILESEvaluator.evaluate_metric L pred gt results metric =
  append_to results metric (Score.smiles L pred gt metric).
Proof.
  unfold MoleculeSMILESEvaluator.evaluate_metric, Score.smiles.
  destruct pred as [p |], gt as [g |]; try reflexivity.
  destruct (String.eqb metric "validity"); [reflexivity |].
  destruct (existsb (String.eqb metric) ["maccs_sims"; "morgan_sims"; "rdk_sims"]);
    reflexivity.
Qed.

Lemma smiles_evaluate_pair_score (metrics : list string) (results : table L)
  (pair : string * string) :
  MoleculeSMILESEvaluator.evaluate_pair L metrics results pair =
  foldM (fun r m => append_to r m (Score.smiles_pair L pair m)) results metrics.
Proof.
  unfold MoleculeSMILESEvaluator.evaluate_pair, Score.smiles_pair.
  destruct (MoleculeSMILESEvaluator.build_evaluate_tuple L (fst pair) (snd pair))
    as [pred gt].
  apply foldM_ext. intros r m. apply smiles_evaluate_metric_score.
Qed.

Lemma smiles_evaluate_run (predictions references : list string)
  (metrics : option (list string)) (verbose : bool) :
  MoleculeSMILESEvaluator.evaluate L predictions references metrics verbose =
  match Score.run (Score.smiles_pair L)
          (Score.requested MoleculeSMILESEvaluator.default_metrics metrics)
          (combine predictions references) with
  | Raise e => ([], Raise e)
  | Ret t => report verbose t
  end.
Proof.
  unfold MoleculeSMILESEvaluator.evaluate, Score.run, Score.requested.
  rewrite (foldM_ext _ _ _ (smiles_evaluate_pair_score _)).
  reflexivity.
Qed.

Lemma caption_evaluate_pair_score (metrics : list string) (results : table L)
  (pair : string * string) :
  MoleculeCaptionEvaluator.evaluate_pair L metrics results pair =
  foldM (fun r m => append_to r m (Score.caption_pair L pair m)) results metrics.
Proof.
  destruct pair as [pred gt]. reflexivity.
Qed.

Lemma caption_evaluate_run (predictions references : list string)
  (metrics : option (list string)) (verbose : bool) :
  MoleculeCaptionEvaluator.evaluate L predictions references metrics verbose =
  match Score.run (Score.caption_pair L)
          (Score.requested MoleculeCaptionEvaluator.default_metrics metrics)
          (combine predictions references) with
  | Raise e => ([], Raise e)
  | Ret t => report verbose t
  end.
Proof.
  unfold MoleculeCaptionEvaluator.evaluate, Score.run, Score.requested.
  rewrite (foldM_ext _ _ _ (caption_evaluate_pair_score _)).
  reflexivity.
Qed.

End Instances.

(** ** The table in closed form *)

Lemma mapM_app {A B : Type} (f : A -> result B) (xs ys : list A) :
  mapM f (xs ++ ys) =
  (a <- mapM f xs ;; b <- mapM f ys ;; Ret (a ++ b)).
Proof.
  induction xs as [| x xs IH]; simpl.
  - destruct (mapM f ys); reflexivity.
  - destruct (f x) as [y | e]; simpl; [| reflexivity].
    rewrite IH. destruct (mapM f xs) as [a | e]; simpl; [| reflexivity].
    destruct (mapM f ys); reflexivity.
Qed.

Lemma mapM_map {A B C : Type} (f : B -> result C) (g : A -> B) (xs : list A) :
  mapM f (map g xs) = mapM (fun x => f (g x)) xs.
Proof.
  induction xs as [| x xs IH]; simpl; [reflexivity |].
  rewrite IH. reflexivity.
Qed.

Lemma mapM_ext_in {A B : Type} (f g : A -> result B) (xs : list A) :
  (forall x, In x xs -> f x = g x) -> mapM f xs = mapM g xs.
Proof.
  induction xs as [| x xs IH]; simpl; intros H; [reflexivity |].
  rewrite (H x (or_introl eq_refl)).
  rewrite IH; [reflexivity | intros x' Hx'; apply H; right; exact Hx'].
Qed.

Section ClosedForm.

Context {V : Type}.

Lemma dict_ext (d d' : Dict.t V) :
  Dict.keys d = Dict.keys d' ->
  NoDup (Dict.keys d) ->
  (forall k, Dict.get k d = Dict.get k d') ->
  d = d'.
Proof.
  revert d'. induction d as [| [k v] d IH]; intros [| [k' v'] d'];
    simpl; intros Hkeys Hnd Hget; try discriminate Hkeys; [reflexivity |].
  injection Hkeys as <- Hkeys. inversion Hnd as [| ? ? Hout Hnd']; subst.
  pose proof (Hget k) as Hk. simpl in Hk. rewrite String.eqb_refl in Hk.
  injection Hk as <-. f_equal. apply IH; [exact Hkeys | exact Hnd' |].
  intros k0. specialize (Hget k0). simpl in Hget.
  destruct (String.eqb k0 k) eqn:Heq; [| exact Hget].
  apply String.eqb_eq in Heq. subst k0.
  rewrite (proj2 (get_None_keys k d) Hout).
  symmetry. apply get_None_keys. unfold Dict.keys in *.
  rewrite <- Hkeys. exact Hout.
Qed.

Lemma keys_tabulate (f : string -> V) (ks : list string) :
  Dict.keys (map (fun k => (k, f k)) ks) = ks.
Proof.
  unfold Dict.keys. rewrite map_map. simpl. apply map_id.
Qed.

Lemma get_tabulate (f : string -> V) (ks : list string) (k : string) :
  Dict.get k (map (fun k' => (k', f k')) ks) =
  if in_dec string_dec k ks then Some (f k) else None.
Proof.
  induction ks as [| k' ks IH]; simpl; [reflexivity |].
  destruct (String.eqb k k') eqn:Heq.
  - apply String.eqb_eq in Heq. subst k'.
    destruct (string_dec k k) as [Hkk | Hne];
      [reflexivity | contradiction Hne; reflexivity].
  - apply String.eqb_neq in Heq. rewrite IH.
    destruct (string_dec k' k) as [Hkk | Hkk];
      [contradiction Heq; symmetry; exact Hkk |].
    destruct (in_dec string_dec k ks); reflexivity.
Qed.

End ClosedForm.

(** The keys of [{metric: [] for metric in metrics}] are the metrics in the
    order of their first occurrence. *)
Lemma keys_empty_lists (L : Library) (metrics : list string) :
  Dict.keys (empty_lists L metrics) = rev (nodup string_dec (rev metrics)).
Proof.
  unfold empty_lists.
  induction metrics as [| m ms IH] using rev_ind; [reflexivity |].
  rewrite fold_left_app, rev_app_distr. simpl.
  destruct (in_dec string_dec m (rev ms)) as [Hin | Hout].
  - rewrite keys_set_present; [exact IH |].
    apply in_rev in Hin. fold (empty_lists L ms).
    rewrite (get_empty_lists_in L ms m Hin). discriminate.
  - rewrite keys_set_absent.
    + simpl. rewrite IH. reflexivity.
    + fold (empty_lists L ms). apply get_empty_lists_out.
      intros Hin. apply Hout. apply in_rev in Hin. exact Hin.
Qed.

Lemma first_occurrences_NoDup (metrics : list string) :
  NoDup metrics -> rev (nodup string_dec (rev metrics)) = metrics.
Proof.
  intros Hnd. rewrite nodup_fixed_point; [apply rev_involutive |].
  apply NoDup_rev, Hnd.
Qed.

Lemma first_occurrences_In (metrics : list string) (k : string) :
  In k (rev (nodup string_dec (rev metrics))) <-> In k metrics.
Proof.
  rewrite <- in_rev, nodup_In, <- in_rev. reflexivity.
Qed.

Lemma run_closed (L : Library)
  (compute : string * string -> string -> result (value L))
  (metrics : list string) (pairs : list (string * string)) :
  Score.run compute metrics pairs =
  (vss <- mapM (fun pair => mapM (compute pair) metrics) pairs ;;
   Ret (map (fun k => (k, flat_map (Score.picks k metrics) vss))
          (rev (nodup string_dec (rev metrics))))).
Proof.
  pose proof (foldM_pairs L compute metrics pairs (empty_lists L metrics)) as HF.
  assert (Hkeys : forall m, In m metrics ->
            Dict.get m (empty_lists L metrics) <> None).
  { intros m Hm. rewrite get_empty_lists_in by exact Hm. discriminate. }
  specialize (HF Hkeys). unfold Score.run.
  destruct (mapM (fun pair => mapM (compute pair) metrics) pairs)
    as [vss | e]; simpl; [| exact HF].
  destruct HF as (t & Ht & Hk & Hget). rewrite Ht. f_equal.
  apply dict_ext.
  - rewrite Hk, keys_tabulate. apply keys_empty_lists.
  - rewrite Hk. apply NoDup_keys_empty_lists.
  - intros k. rewrite Hget, get_tabulate.
    destruct (in_dec string_dec k (rev (nodup string_dec (rev metrics))))
      as [Hin | Hout].
    + apply (proj1 (first_occurrences_In metrics k)) in Hin.
      rewrite get_empty_lists_in by exact Hin. reflexivity.
    + rewrite get_empty_lists_out; [reflexivity |].
      intros Hin. apply Hout.
      apply (proj2 (first_occurrences_In metrics k)), Hin.
Qed.

Lemma evaluate_shape (L : Library)
  (ev : list string -> list string -> option (list string) -> bool ->
        list string * result (table L)) :
  ev = MoleculeSMILESEvaluator.evaluate L \/
  ev = MoleculeCaptionEvaluator.evaluate L ->
  exists compute default,
    forall predictions references metrics verbose,
      ev predictions references metrics verbose =
      match Score.run compute (Score.requested default metrics)
              (combine predictions references) with
      | Raise e => ([], Raise e)
      | Ret t => report verbose t
      end.
Proof.
  intros [-> | ->].
  - exists (Score.smiles_pair L), MoleculeSMILESEvaluator.default_metrics.
    apply smiles_evaluate_run.
  - exists (Score.caption_pair L), MoleculeCaptionEvaluator.default_metrics.
    apply caption_evaluate_run.
Qed.

(** ** Lists of pairs *)

Lemma combine_app_same_length {A B : Type} (l1 l2 : list A) (l1' l2' : list B) :
  List.length l1 = List.length l1' ->
  combine (l1 ++ l2) (l1' ++ l2') = combine l1 l1' ++ combine l2 l2'.
Proof.
  revert l1'. induction l1 as [| a l1 IH]; intros [| b l1'] Hlen;
    simpl in *; try discriminate Hlen; [reflexivity |].
  f_equal. apply IH. injection Hlen as Hlen. exact Hlen.
Qed.

Lemma Forall2_nth_error {A B : Type} (R : A -> B -> Prop) (xs : list A)
  (ys : list B) :
  Forall2 R xs ys ->
  forall i x, nth_error xs i = Some x ->
    exists y, nth_error ys i = Some y /\ R x y.
Proof.
  intros H. induction H as [| x' y xs ys Hxy _ IH]; intros [| i] x Hx;
    simpl in *; try discriminate Hx.
  - injection Hx as <-. exists y. split; [reflexivity | exact Hxy].
  - apply IH, Hx.
Qed.

Lemma nth_error_combine {A B : Type} (xs : list A) (ys : list B) (i : nat)
  (x : A) (y : B) :
  nth_error xs i = Some x -> nth_error ys i = Some y ->
  nth_error (combine xs ys) i = Some (x, y).
Proof.
  revert ys i. induction xs as [| a xs IH]; intros [| b ys] [| i] Hx Hy;
    simpl in *; try discriminate.
  - injection Hx as <-. injection Hy as <-. reflexivity.
  - apply IH; assumption.
Qed.

(** ** A report that returns *)

Lemma print_means_returns (L : Library)
  (items : list (string * list (value L))) :
  (forall item, In item items -> returns (np_mean L (snd item))) ->
  exists lines, print_means items = (lines, Ret tt).
Proof.
  induction items as [| [metric values] items IH]; simpl; intros Hall.
  - exists []. reflexivity.
  - destruct (Hall (metric, values) (or_introl eq_refl)) as [m Hm].
    simpl in Hm. rewrite Hm.
    destruct IH as [lines Hlines];
      [intros item Hitem; apply Hall; right; exact Hitem |].
    rewrite Hlines. eexists. reflexivity.
Qed.

(** * The claims *)

(** ** Normalization *)

Lemma convert_sf_encode_None (L : Library) (s : string) :
  MoleculeSMILESEvaluator.convert_to_canonical_smiles L
    (MoleculeSMILESEvaluator.sf_encode L s) = None <->
  raises (sf_decoder L s) \/
  exists smi, sf_decoder L s = Ret smi /\ MolFromSmiles L smi = None.
Proof.
  unfold MoleculeSMILESEvaluator.convert_to_canonical_smiles,
    MoleculeSMILESEvaluator.sf_encode.
  destruct (sf_decoder L s) as [smi | e]; simpl.
  - destruct (MolFromSmiles L smi) as [m |] eqn:Hm; split.
    + discriminate.
    + intros [[e He] | (smi' & Hs & Hnone)]; [discriminate He |].
      injection Hs as <-. rewrite Hm in Hnone. discriminate Hnone.
    + intros _. right. exists smi. split; [reflexivity | exact Hm].
    + reflexivity.
  - split; [intros _; left; exists e |]; reflexivity.
Qed.

Lemma convert_sf_encode_Some (L : Library) (s c : string) :
  MoleculeSMILESEvaluator.convert_to_canonical_smiles L
    (MoleculeSMILESEvaluator.sf_encode L s) = Some c <->
  exists smi m,
    sf_decoder L s = Ret smi /\ MolFromSmiles L smi = Some m /\
    c = MolToSmiles L m.
Proof.
  unfold MoleculeSMILESEvaluator.convert_to_canonical_smiles,
    MoleculeSMILESEvaluator.sf_encode.
  destruct (sf_decoder L s) as [smi | e]; simpl.
  - destruct (MolFromSmiles L smi) as [m |] eqn:Hm; split.
    + intros H. injection H as <-. exists smi, m. repeat split. exact Hm.
    + intros (smi' & m' & Hs & Hm' & ->). injection Hs as <-.
      rewrite Hm in Hm'. injection Hm' as <-. reflexivity.
    + discriminate.
    + intros (smi' & m' & Hs & Hm' & _). injection Hs as <-.
      rewrite Hm in Hm'. discriminate Hm'.
  - split; [discriminate | intros (smi & m & Hs & _); discriminate Hs].
Qed.

(** C6. [build_evaluate_tuple] of the structure evaluator treats the two
    sides independently: its result is the pair of
    [canonicalize (decode pred)] and [canonicalize (decode gt)]; the first
    component does not depend on [gt] nor the second on [pred]; a side is
    null exactly when its own decoding raises or its own decoded string does
    not parse, and otherwise it is the canonical string of its own
    molecule. *)
Theorem C6_build_evaluate_tuple_componentwise (L : Library) (pred gt : string) :
  MoleculeSMILESEvaluator.build_evaluate_tuple L pred gt =
    (MoleculeSMILESEvaluator.convert_to_canonical_smiles L
       (MoleculeSMILESEvaluator.sf_encode L pred),
     MoleculeSMILESEvaluator.convert_to_canonical_smiles L
       (MoleculeSMILESEvaluator.sf_encode L gt)) /\
  (forall gt',
     fst (MoleculeSMILESEvaluator.build_evaluate_tuple L pred gt') =
     fst (MoleculeSMILESEvaluator.build_evaluate_tuple L pred gt)) /\
  (forall pred',
     snd (MoleculeSMILESEvaluator.build_evaluate_tuple L pred' gt) =
     snd (MoleculeSMILESEvaluator.build_evaluate_tuple L pred gt)) /\
  (fst (MoleculeSMILESEvaluator.build_evaluate_tuple L pred gt) = None <->
   raises (sf_decoder L pred) \/
   exists smi, sf_decoder L pred = Ret smi /\ MolFromSmiles L smi = None) /\
  (snd (MoleculeSMILESEvaluator.build_evaluate_tuple L pred gt) = None <->
   raises (sf_decoder L gt) \/
   exists smi, sf_decoder L gt = Ret smi /\ MolFromSmiles L smi = None) /\
  (forall c,
     fst (MoleculeSMILESEvaluator.build_evaluate_tuple L pred gt) = Some c <->
     exists smi m,
       sf_decoder L pred = Ret smi /\ MolFromSmiles L smi = Some m /\
       c = MolToSmiles L m) /\
  (forall c,
     snd (MoleculeSMILESEvaluator.build_evaluate_tuple L pred gt) = Some c <->
     exists smi m,
       sf_decoder L gt = Ret smi /\ MolFromSmiles L smi = Some m /\
       c = MolToSmiles L m).
Proof.
  unfold MoleculeSMILESEvaluator.build_evaluate_tuple. simpl.
  split; [reflexivity |].
  split; [reflexivity |].
  split; [reflexivity |].
  split; [apply convert_sf_encode_None |].
  split; [apply convert_sf_encode_None |].
  split; intros c; apply convert_sf_encode_Some.
Qed.

(** ** Single metrics of the structure evaluator *)

(** C4. On a normalized pair the loop appends for [validity] a score equal
    to 1 exactly when both sides are non-null and equal to 0 exactly when
    one of them is null. The score is computed from the normalized pair
    alone: the raw prediction is never looked at. (When both sides are
    non-null the object appended is Python's [True], which is [== 1].) *)
Theorem C4_validity_is_normalization_success (L : Library)
  (pred gt : string) (results : table L) :
  let (p, g) := MoleculeSMILESEvaluator.build_evaluate_tuple L pred gt in
  exists v : value L,
    MoleculeSMILESEvaluator.evaluate_metric L p g results "validity" =
    append_to results "validity" (Ret v) /\
    (eq_int v 1 = true <-> p <> None /\ g <> None) /\
    (eq_int v 0 = true <-> p = None \/ g = None) /\
    v = (match p, g with
         | Some _, Some _ => VBool true
         | _, _ => VInt 0
         end).
Proof.
  destruct (MoleculeSMILESEvaluator.build_evaluate_tuple L pred gt) as [p g].
  destruct p as [p |], g as [g |];
    [exists (VBool true) | exists (VInt 0) | exists (VInt 0) | exists (VInt 0)];
    (split; [reflexivity |]); simpl; intuition congruence.
Qed.

(** What the loop appends for [bleu] on a pair that normalized: the result
    of [sentence_bleu(pred, gt)], the normalized prediction in the place of
    the references and the normalized reference in the place of the
    hypothesis, neither of them wrapped in a list. *)
Lemma smiles_bleu_call (L : Library) (p g : string) (results : table L) :
  MoleculeSMILESEvaluator.evaluate_metric L (Some p) (Some g) results "bleu" =
  append_to results "bleu"
    (as_float (sentence_bleu L (VStr p) (VStr g) None)).
Proof. reflexivity. Qed.

(** C5. The code at the failing input: for the prediction [[C][O]] and the
    reference [[C][C]], which normalize to [CO] and [CC], the [bleu] entry
    is the score of [sentence_bleu('CO', 'CC')], prediction first, and not
    that of [sentence_bleu(['CC'], 'CO')], which is what the caption
    evaluator's call shape gives on the same texts. *)
Theorem C5_bleu_arguments_at_failing_input :
  MoleculeSMILESEvaluator.build_evaluate_tuple Symbolic.lib "[C][O]" "[C][C]" =
    (Some "CO", Some "CC") /\
  MoleculeSMILESEvaluator.evaluate Symbolic.lib ["[C][O]"] ["[C][C]"]
    (Some ["bleu"]) false =
    ([], Ret [("bleu", [VFloat "sentence_bleu('CO', 'CC')"])]) /\
  MoleculeCaptionEvaluator.evaluate Symbolic.lib ["CO"] ["CC"]
    (Some ["bleu-4"]) false =
    ([], Ret [("bleu-4", [VFloat "sentence_bleu(['CC'], 'CO')"])]) /\
  sentence_bleu Symbolic.lib (VStr "CO") (VStr "CC") None <>
  sentence_bleu Symbolic.lib (VStrList ["CC"]) (VStr "CO") None.
Proof.
  repeat split; try reflexivity. discriminate.
Qed.

(** ** Pairs that fail to normalize *)

Lemma smiles_pair_null (L : Library) (pred gt : string) :
  fst (MoleculeSMILESEvaluator.build_evaluate_tuple L pred gt) = None \/
  snd (MoleculeSMILESEvaluator.build_evaluate_tuple L pred gt) = None ->
  forall metric, Score.smiles_pair L (pred, gt) metric = Ret (VInt 0).
Proof.
  intros H metric. unfold Score.smiles_pair. simpl fst. simpl snd.
  destruct (MoleculeSMILESEvaluator.build_evaluate_tuple L pred gt)
    as [[p |] [g |]]; simpl in *; try reflexivity.
  destruct H as [H | H]; discriminate H.
Qed.

(** ** What a call returns *)
Section Returned.

Variable L : Library.

Lemma run_one_per_pair (compute : string * string -> string -> result (value L))
  (metrics : list string) (pairs : list (string * string)) (t : table L) :
  NoDup metrics ->
  Score.run compute metrics pairs = Ret t ->
  forall m, In m metrics ->
    exists l,
      Dict.get m t = Some l /\
      Forall2 (fun pair v => compute pair m = Ret v) pairs l.
Proof.
  intros Hnd Hrun m Hm.
  destruct (scoring_table L _ _ _ _ Hrun) as (_ & _ & Hin).
  destruct (Hin m Hm) as (vals & Hvals & Hget).
  exists vals. split; [| exact Hvals].
  rewrite Hget, (count_occ_NoDup_In metrics m Hnd Hm), flat_map_repeat_one.
  reflexivity.
Qed.

Lemma run_lengths (compute : string * string -> string -> result (value L))
  (metrics : list string) (pairs : list (string * string)) (t : table L) :
  Score.run compute metrics pairs = Ret t ->
  forall m, In m metrics ->
    exists l,
      Dict.get m t = Some l /\
      List.length l = count_occ string_dec metrics m * List.length pairs.
Proof.
  intros Hrun m Hm.
  destruct (scoring_table L _ _ _ _ Hrun) as (_ & _ & Hin).
  destruct (Hin m Hm) as (vals & Hvals & Hget).
  eexists. split; [exact Hget |].
  rewrite flat_map_repeat_length.
  rewrite <- (Forall2_length Hvals). reflexivity.
Qed.

Lemma smiles_evaluate_Ret (predictions references : list string)
  (metrics : option (list string)) (verbose : bool) (out : list string)
  (t : table L) :
  MoleculeSMILESEvaluator.evaluate L predictions references metrics verbose =
    (out, Ret t) ->
  Score.run (Score.smiles_pair L)
    (Score.requested MoleculeSMILESEvaluator.default_metrics metrics)
    (combine predictions references) = Ret t.
Proof.
  rewrite smiles_evaluate_run.
  destruct (Score.run _ _ _) as [t0 | e]; intros H; [| discriminate H].
  apply report_Ret in H. subst t0. reflexivity.
Qed.

Lemma caption_evaluate_Ret (predictions references : list string)
  (metrics : option (list string)) (verbose : bool) (out : list string)
  (t : table L) :
  MoleculeCaptionEvaluator.evaluate L predictions references metrics verbose =
    (out, Ret t) ->
  Score.run (Score.caption_pair L)
    (Score.requested MoleculeCaptionEvaluator.default_metrics metrics)
    (combine predictions references) = Ret t.
Proof.
  rewrite caption_evaluate_run.
  destruct (Score.run _ _ _) as [t0 | e]; intros H; [| discriminate H].
  apply report_Ret in H. subst t0. reflexivity.
Qed.

Lemma smiles_evaluate_total (predictions references : list string)
  (metrics : option (list string)) (verbose : bool) :
  (forall pair m,
     In pair (combine predictions references) ->
     In m (Score.requested MoleculeSMILESEvaluator.default_metrics metrics) ->
     returns (Score.smiles_pair L pair m)) ->
  (verbose = true -> forall vs, returns (np_mean L vs)) ->
  exists out t,
    MoleculeSMILESEvaluator.evaluate L predictions references metrics verbose =
    (out, Ret t).
Proof.
  intros Hscores Hmean. rewrite smiles_evaluate_run.
  apply scoring_returns in Hscores. destruct Hscores as [t Ht]. rewrite Ht.
  destruct (report_total L verbose t Hmean) as [out Hout].
  exists out, t. exact Hout.
Qed.

Lemma caption_evaluate_total (predictions references : list string)
  (metrics : option (list string)) (verbose : bool) :
  (forall pair m,
     In pair (combine predictions references) ->
     In m (Score.requested MoleculeCaptionEvaluator.default_metrics metrics) ->
     returns (Score.caption_pair L pair m)) ->
  (verbose = true -> forall vs, returns (np_mean L vs)) ->
  exists out t,
    MoleculeCaptionEvaluator.evaluate L predictions references metrics verbose =
    (out, Ret t).
Proof.
  intros Hscores Hmean. rewrite caption_evaluate_run.
  apply scoring_returns in Hscores. destruct Hscores as [t Ht]. rewrite Ht.
  destruct (report_total L verbose t Hmean) as [out Hout].
  exists out, t. exact Hout.
Qed.

End Returned.

Lemma NoDup_smiles_default : NoDup MoleculeSMILESEvaluator.default_metrics.
Proof.
  unfold MoleculeSMILESEvaluator.default_metrics.
  repeat (constructor; [simpl; intuition discriminate |]). constructor.
Qed.

Lemma NoDup_caption_default : NoDup MoleculeCaptionEvaluator.default_metrics.
Proof.
  unfold MoleculeCaptionEvaluator.default_metrics.
  repeat (constructor; [simpl; intuition discriminate |]). constructor.
Qed.

Lemma NoDup_requested (default : list string) (metrics : option (list string)) :
  NoDup default ->
  (forall ms, metrics = Some ms -> NoDup ms) ->
  NoDup (Score.requested default metrics).
Proof.
  intros Hd Hm. destruct metrics as [ms |]; simpl; [apply Hm; reflexivity | exact Hd].
Qed.

(** ** A pair that fails to normalize, inside a call *)

(** A scoring exception is the only way for a call to raise with nothing
    printed: the report prints its header before it can raise. *)
Lemma report_not_silent_raise (L : Library) (verbose : bool) (t : table L)
  (e : exn) :
  report verbose t <> ([], Raise e).
Proof.
  unfold report. destruct verbose.
  - destruct (print_means t) as [out r]. intros H. inversion H.
  - intros H. inversion H.
Qed.

Lemma smiles_silent_raise (L : Library) (predictions references : list string)
  (metrics : option (list string)) (verbose : bool) (e : exn) :
  MoleculeSMILESEvaluator.evaluate L predictions references metrics verbose =
    ([], Raise e) <->
  Score.run (Score.smiles_pair L)
    (Score.requested MoleculeSMILESEvaluator.default_metrics metrics)
    (combine predictions references) = Raise e.
Proof.
  rewrite smiles_evaluate_run.
  destruct (Score.run _ _ _) as [t | e0]; split; intros H.
  - exfalso. exact (report_not_silent_raise L verbose t e H).
  - discriminate H.
  - injection H as ->. reflexivity.
  - injection H as ->. reflexivity.
Qed.

Lemma run_insert (L : Library)
  (compute : string * string -> string -> result (value L))
  (ms : list string) (before after : list (string * string))
  (pair : string * string) :
  returns (mapM (compute pair) ms) ->
  (forall e,
     Score.run compute ms (before ++ pair :: after) = Raise e <->
     Score.run compute ms (before ++ after) = Raise e) /\
  (returns (Score.run compute ms (before ++ pair :: after)) <->
   returns (Score.run compute ms (before ++ after))).
Proof.
  intros [zs Hzs]. rewrite !run_closed, !mapM_app.
  cbn [mapM]. rewrite Hzs. cbn [bind].
  destruct (mapM (fun p => mapM (compute p) ms) before) as [a | ea];
    destruct (mapM (fun p => mapM (compute p) ms) after) as [b | eb];
    cbn [bind]; split; try (intros e; split; intros H; try discriminate H;
                            exact H);
    split; intros [t Ht]; try discriminate Ht; eexists; reflexivity.
Qed.

(** C1. In a call of the structure evaluator, let the prediction or the
    reference of a pair normalize to null.
    - In the table that the call returns, every requested metric's list is
      made of one chunk per input pair, in input order, each chunk as long
      as the metric occurs in the metrics list, and the chunk of that pair
      holds zeros only: a 0 is appended and no pair is skipped. For a metric
      listed once the list has one entry per input pair and 0 at the
      position of that pair.
    - That pair raises nothing: the call raises a scoring exception exactly
      when the call on the two lists without that pair raises it, and,
      without [verbose], returns exactly when that call returns.
    - A call all of whose pairs are such returns a table. *)
Theorem C1_null_pair_scores_zero (L : Library)
  (predictions references : list string) (metrics : option (list string))
  (verbose : bool) :
  (forall out t i pred gt,
     MoleculeSMILESEvaluator.evaluate L predictions references metrics
       verbose = (out, Ret t) ->
     nth_error predictions i = Some pred ->
     nth_error references i = Some gt ->
     fst (MoleculeSMILESEvaluator.build_evaluate_tuple L pred gt) = None \/
     snd (MoleculeSMILESEvaluator.build_evaluate_tuple L pred gt) = None ->
     forall m,
       In m (Score.requested MoleculeSMILESEvaluator.default_metrics metrics) ->
       exists chunks,
         Dict.get m t = Some (List.concat chunks) /\
         List.length chunks = List.length (combine predictions references) /\
         Forall
           (fun c =>
              List.length c =
              count_occ string_dec
                (Score.requested MoleculeSMILESEvaluator.default_metrics
                   metrics) m)
           chunks /\
         nth_error chunks i =
           Some (repeat (VInt 0)
                   (count_occ string_dec
                      (Score.requested MoleculeSMILESEvaluator.default_metrics
                         metrics) m)) /\
         (count_occ string_dec
            (Score.requested MoleculeSMILESEvaluator.default_metrics metrics)
            m = 1 ->
          exists l,
            Dict.get m t = Some l /\
            List.length l = List.length (combine predictions references) /\
            nth_error l i = Some (VInt 0))) /\
  (forall p1 p2 r1 r2 pred gt,
     predictions = p1 ++ pred :: p2 ->
     references = r1 ++ gt :: r2 ->
     List.length p1 = List.length r1 ->
     fst (MoleculeSMILESEvaluator.build_evaluate_tuple L pred gt) = None \/
     snd (MoleculeSMILESEvaluator.build_evaluate_tuple L pred gt) = None ->
     (forall e,
        MoleculeSMILESEvaluator.evaluate L predictions references metrics
          verbose = ([], Raise e) <->
        MoleculeSMILESEvaluator.evaluate L (p1 ++ p2) (r1 ++ r2) metrics
          verbose = ([], Raise e)) /\
     ((exists t,
         MoleculeSMILESEvaluator.evaluate L predictions references metrics
           false = ([], Ret t)) <->
      (exists t,
         MoleculeSMILESEvaluator.evaluate L (p1 ++ p2) (r1 ++ r2) metrics
           false = ([], Ret t)))) /\
  ((forall pred gt,
      In (pred, gt) (combine predictions references) ->
      fst (MoleculeSMILESEvaluator.build_evaluate_tuple L pred gt) = None \/
      snd (MoleculeSMILESEvaluator.build_evaluate_tuple L pred gt) = None) ->
   exists t,
     MoleculeSMILESEvaluator.evaluate L predictions references metrics false =
     ([], Ret t)).
Proof.
  set (ms := Score.requested MoleculeSMILESEvaluator.default_metrics metrics).
  assert (Hzeros : forall pred gt,
            fst (MoleculeSMILESEvaluator.build_evaluate_tuple L pred gt) = None \/
            snd (MoleculeSMILESEvaluator.build_evaluate_tuple L pred gt) = None ->
            returns (mapM (Score.smiles_pair L (pred, gt)) ms)).
  { intros pred gt Hnull. apply mapM_returns. intros m _.
    exists (VInt 0). apply smiles_pair_null, Hnull. }
  split; [| split].
  - intros out t i pred gt Hcall Hp Hg Hnull m Hm.
    apply smiles_evaluate_Ret in Hcall. fold ms in Hcall.
    destruct (scoring_table L _ _ _ _ Hcall) as (_ & _ & Htab).
    destruct (Htab m Hm) as (vals & Hvals & Hget).
    destruct (Forall2_nth_error _ _ _ Hvals i (pred, gt)
                (nth_error_combine _ _ _ _ _ Hp Hg)) as (v & Hv & Hscore).
    rewrite (smiles_pair_null L pred gt Hnull m) in Hscore.
    injection Hscore as <-.
    exists (map (fun v => repeat v (count_occ string_dec ms m)) vals).
    rewrite <- flat_map_concat_map. split; [exact Hget |].
    split; [rewrite length_map; symmetry; apply (Forall2_length Hvals) |].
    split; [| split].
    + apply Forall_map, Forall_forall. intros v _. apply repeat_length.
    + rewrite nth_error_map, Hv. reflexivity.
    + intros Hone. exists vals. rewrite Hget, Hone, flat_map_repeat_one.
      split; [reflexivity |].
      split; [symmetry; apply (Forall2_length Hvals) | exact Hv].
  - intros p1 p2 r1 r2 pred gt -> -> Hlen Hnull.
    destruct (run_insert L (Score.smiles_pair L) ms (combine p1 r1)
                (combine p2 r2) (pred, gt) (Hzeros pred gt Hnull))
      as [Hraise Hret].
    assert (Hin : combine (p1 ++ pred :: p2) (r1 ++ gt :: r2) =
                  combine p1 r1 ++ (pred, gt) :: combine p2 r2)
      by (apply (combine_app_same_length p1 (pred :: p2) r1 (gt :: r2) Hlen)).
    assert (Hout : combine (p1 ++ p2) (r1 ++ r2) =
                   combine p1 r1 ++ combine p2 r2)
      by (apply (combine_app_same_length p1 p2 r1 r2 Hlen)).
    split.
    + intros e. rewrite !smiles_silent_raise. fold ms.
      rewrite Hin, Hout. apply Hraise.
    + rewrite !smiles_evaluate_run. fold ms. rewrite Hin, Hout.
      destruct Hret as [Hto Hfrom]. split; intros [t Ht].
      * destruct (Score.run (Score.smiles_pair L) ms
                    (combine p1 r1 ++ (pred, gt) :: combine p2 r2))
          as [t0 | e0] eqn:Hrun; [| discriminate Ht].
        destruct (Hto (ex_intro _ t0 eq_refl)) as [t' Ht'].
        rewrite Ht'. exists t'. reflexivity.
      * destruct (Score.run (Score.smiles_pair L) ms
                    (combine p1 r1 ++ combine p2 r2))
          as [t0 | e0] eqn:Hrun; [| discriminate Ht].
        destruct (Hfrom (ex_intro _ t0 eq_refl)) as [t' Ht'].
        rewrite Ht'. exists t'. reflexivity.
  - intros Hall. rewrite smiles_evaluate_run. fold ms.
    assert (Hret : returns (Score.run (Score.smiles_pair L) ms
                              (combine predictions references))).
    { apply scoring_returns. intros [pred gt] m Hpair _.
      exists (VInt 0). apply smiles_pair_null, Hall, Hpair. }
    destruct Hret as [t Ht]. rewrite Ht. exists t. reflexivity.
Qed.

(** The second of three pairs has a prediction that does not parse: under
    both requested metrics its chunk is one 0, and the call returns as the
    call on the other two pairs does. *)
Lemma C1_null_pair_scores_zero_witness :
  MoleculeSMILESEvaluator.evaluate Symbolic.lib ["[C]"; "[X]"; "[C][O]"]
    ["[C]"; "[C]"; "[C]"] (Some ["validity"; "bleu"]) false =
    ([], Ret [("validity", [VBool true; VInt 0; VBool true]);
              ("bleu", [VFloat "sentence_bleu('C', 'C')"; VInt 0;
                        VFloat "sentence_bleu('CO', 'C')"])]) /\
  nth_error ["[C]"; "[X]"; "[C][O]"] 1 = Some "[X]" /\
  nth_error ["[C]"; "[C]"; "[C]"] 1 = Some "[C]" /\
  (fst (MoleculeSMILESEvaluator.build_evaluate_tuple Symbolic.lib "[X]" "[C]")
     = None \/
   snd (MoleculeSMILESEvaluator.build_evaluate_tuple Symbolic.lib "[X]" "[C]")
     = None) /\
  (exists chunks,
     Dict.get "bleu"
       ([("validity", [VBool true; VInt 0; VBool true]);
         ("bleu", [VFloat "sentence_bleu('C', 'C')"; VInt 0;
                   VFloat "sentence_bleu('CO', 'C')"])] : table Symbolic.lib) =
       Some (List.concat chunks) /\
     List.length chunks =
       List.length (combine ["[C]"; "[X]"; "[C][O]"] ["[C]"; "[C]"; "[C]"]) /\
     Forall
       (fun c =>
          List.length c =
          count_occ string_dec
            (Score.requested MoleculeSMILESEvaluator.default_metrics
               (Some ["validity"; "bleu"])) "bleu")
       chunks /\
     nth_error chunks 1 =
       Some (repeat (VInt 0)
               (count_occ string_dec
                  (Score.requested MoleculeSMILESEvaluator.default_metrics
                     (Some ["validity"; "bleu"])) "bleu")) /\
     (count_occ string_dec
        (Score.requested MoleculeSMILESEvaluator.default_metrics
           (Some ["validity"; "bleu"])) "bleu" = 1 ->
      exists l,
        Dict.get "bleu"
          ([("validity", [VBool true; VInt 0; VBool true]);
            ("bleu", [VFloat "sentence_bleu('C', 'C')"; VInt 0;
                      VFloat "sentence_bleu('CO', 'C')"])]
           : table Symbolic.lib) = Some l /\
        List.length l =
          List.length (combine ["[C]"; "[X]"; "[C][O]"] ["[C]"; "[C]"; "[C]"]) /\
        nth_error l 1 = Some (VInt 0))) /\
  ((exists t,
      MoleculeSMILESEvaluator.evaluate Symbolic.lib ["[C]"; "[X]"; "[C][O]"]
        ["[C]"; "[C]"; "[C]"] (Some ["validity"; "bleu"]) false = ([], Ret t)) <->
   (exists t,
      MoleculeSMILESEvaluator.evaluate Symbolic.lib (["[C]"] ++ ["[C][O]"])
        (["[C]"] ++ ["[C]"]) (Some ["validity"; "bleu"]) false = ([], Ret t))).
Proof.
  assert (Hnull : fst (MoleculeSMILESEvaluator.build_evaluate_tuple
                         Symbolic.lib "[X]" "[C]") = None \/
                  snd (MoleculeSMILESEvaluator.build_evaluate_tuple
                         Symbolic.lib "[X]" "[C]") = None)
    by (left; reflexivity).
  pose proof (C1_null_pair_scores_zero Symbolic.lib ["[C]"; "[X]"; "[C][O]"]
                ["[C]"; "[C]"; "[C]"] (Some ["validity"; "bleu"]) false)
    as (Hrow & Hpair & _).
  split; [reflexivity |]. split; [reflexivity |]. split; [reflexivity |].
  split; [exact Hnull |]. split.
  - exact (Hrow [] _ 1 "[X]" "[C]" eq_refl eq_refl eq_refl Hnull "bleu"
             (or_intror (or_introl eq_refl))).
  - exact (proj2 (Hpair ["[C]"] ["[C][O]"] ["[C]"] ["[C]"] "[X]" "[C]"
                    eq_refl eq_refl eq_refl Hnull)).
Defined.

(** ** The shape of the returned table *)

(** C2, as stated, fails in two ways. A metric that is requested twice gets
    two entries per pair: for the single pair [[C]], [[C]] and
    [metrics = ["validity", "validity"]] the structure evaluator returns
    [{"validity": [True, True]}], whose list has two entries for one input
    pair. And a call need not return a table: the caption evaluator, on one
    pair and a metric name that is not in its table, raises [KeyError]. *)
Lemma C2_counterexample :
  ["[C]"] <> [] /\
  List.length ["[C]"] = List.length ["[C]"] /\
  MoleculeSMILESEvaluator.evaluate Symbolic.lib ["[C]"] ["[C]"]
    (Some ["validity"; "validity"]) false =
    ([], Ret [("validity", [VBool true; VBool true])]) /\
  ~ (exists out t,
       MoleculeSMILESEvaluator.evaluate Symbolic.lib ["[C]"] ["[C]"]
         (Some ["validity"; "validity"]) false = (out, Ret t) /\
       forall m, In m ["validity"; "validity"] ->
         exists l,
           Dict.get m t = Some l /\ List.length l = List.length ["[C]"]) /\
  ["a"] <> [] /\
  List.length ["a"] = List.length ["b"] /\
  MoleculeCaptionEvaluator.evaluate Symbolic.lib ["a"] ["b"] (Some ["nope"])
    false = ([], Raise (KeyError "nope")) /\
  ~ (exists out t,
       MoleculeCaptionEvaluator.evaluate Symbolic.lib ["a"] ["b"]
         (Some ["nope"]) false = (out, Ret t)).
Proof.
  split; [discriminate |]. split; [reflexivity |]. split; [reflexivity |].
  split; [| split; [discriminate | split; [reflexivity |
                                           split; [reflexivity |]]]].
  - intros (out & t & Hcall & Hlen).
    injection Hcall as _ <-.
    destruct (Hlen "validity" (or_introl eq_refl)) as (l & Hget & Hl).
    injection Hget as <-. discriminate Hl.
  - intros (out & t & H). discriminate H.
Qed.

Lemma run_scores (L : Library)
  (compute : string * string -> string -> result (value L))
  (ms : list string) (pairs : list (string * string)) (t : table L) :
  Score.run compute ms pairs = Ret t ->
  forall m, In m ms ->
    exists vals,
      Forall2 (fun pair v => compute pair m = Ret v) pairs vals /\
      List.length vals = List.length pairs /\
      Dict.get m t =
        Some (flat_map (fun v => repeat v (count_occ string_dec ms m)) vals) /\
      (count_occ string_dec ms m = 1 -> Dict.get m t = Some vals) /\
      (forall l,
         Dict.get m t = Some l ->
         List.length l = count_occ string_dec ms m * List.length pairs).
Proof.
  intros Hrun m Hm.
  destruct (scoring_table L _ _ _ _ Hrun) as (_ & _ & Htab).
  destruct (Htab m Hm) as (vals & Hvals & Hget).
  exists vals. split; [exact Hvals |].
  split; [symmetry; apply (Forall2_length Hvals) |].
  split; [exact Hget |]. split.
  - intros Hone. rewrite Hget, Hone, flat_map_repeat_one. reflexivity.
  - intros l Hl. rewrite Hget in Hl. injection Hl as <-.
    rewrite flat_map_repeat_length, (Forall2_length Hvals). reflexivity.
Qed.

Lemma run_returns_report (L : Library)
  (compute : string * string -> string -> result (value L))
  (ms : list string) (pairs : list (string * string)) :
  (forall pair m, In pair pairs -> In m ms -> returns (compute pair m)) ->
  exists t,
    Score.run compute ms pairs = Ret t /\
    ((forall item, In item t -> returns (np_mean L (snd item))) ->
     exists out, report true t = (out, Ret t)).
Proof.
  intros Hscores. apply scoring_returns in Hscores.
  destruct Hscores as [t Ht]. exists t. split; [exact Ht |].
  intros Hmean. destruct (print_means_returns L t Hmean) as [lines Hl].
  unfold report. rewrite Hl. eexists. reflexivity.
Qed.

(** C2, amended. For predictions and references of equal length, on either
    evaluator: whenever [evaluate] returns a table, every requested metric's
    list holds the scores of the pairs in input order, the score of each
    pair once for each time the metric occurs in the metrics list. The list
    of a metric listed once (as every metric is when no name is repeated,
    the default lists included) thus has one entry per input pair, the score
    of the i-th pair at position i, and the list of a metric listed [k]
    times has [k] entries per pair.
    [evaluate] returns a table, without [verbose], whenever every requested
    metric's score on every pair returns; with [verbose] it returns that
    table when moreover the mean returns on each list of the table. *)
Theorem C2_one_score_per_pair (L : Library)
  (predictions references : list string) (metrics : option (list string))
  (verbose : bool) :
  List.length predictions = List.length references ->
  ((forall out t,
      MoleculeSMILESEvaluator.evaluate L predictions references metrics
        verbose = (out, Ret t) ->
      forall m,
        In m (Score.requested MoleculeSMILESEvaluator.default_metrics metrics) ->
        exists vals,
          Forall2 (fun pair v => Score.smiles_pair L pair m = Ret v)
            (combine predictions references) vals /\
          List.length vals = List.length predictions /\
          Dict.get m t =
            Some (flat_map
                    (fun v =>
                       repeat v
                         (count_occ string_dec
                            (Score.requested
                               MoleculeSMILESEvaluator.default_metrics metrics)
                            m))
                    vals) /\
          (count_occ string_dec
             (Score.requested MoleculeSMILESEvaluator.default_metrics metrics)
             m = 1 ->
           Dict.get m t = Some vals) /\
          (forall l,
             Dict.get m t = Some l ->
             List.length l =
               count_occ string_dec
                 (Score.requested MoleculeSMILESEvaluator.default_metrics
                    metrics) m *
               List.length predictions)) /\
   (forall m,
      (forall ms, metrics = Some ms -> NoDup ms) ->
      In m (Score.requested MoleculeSMILESEvaluator.default_metrics metrics) ->
      count_occ string_dec
        (Score.requested MoleculeSMILESEvaluator.default_metrics metrics) m =
      1) /\
   ((forall pair m,
       In pair (combine predictions references) ->
       In m (Score.requested MoleculeSMILESEvaluator.default_metrics metrics) ->
       returns (Score.smiles_pair L pair m)) ->
    exists t,
      MoleculeSMILESEvaluator.evaluate L predictions references metrics
        false = ([], Ret t) /\
      ((forall item, In item t -> returns (np_mean L (snd item))) ->
       exists out,
         MoleculeSMILESEvaluator.evaluate L predictions references metrics
           true = (out, Ret t)))) /\
  ((forall out t,
      MoleculeCaptionEvaluator.evaluate L predictions references metrics
        verbose = (out, Ret t) ->
      forall m,
        In m (Score.requested MoleculeCaptionEvaluator.default_metrics metrics) ->
        exists vals,
          Forall2 (fun pair v => Score.caption_pair L pair m = Ret v)
            (combine predictions references) vals /\
          List.length vals = List.length predictions /\
          Dict.get m t =
            Some (flat_map
                    (fun v =>
                       repeat v
                         (count_occ string_dec
                            (Score.requested
                               MoleculeCaptionEvaluator.default_metrics metrics)
                            m))
                    vals) /\
          (count_occ string_dec
             (Score.requested MoleculeCaptionEvaluator.default_metrics metrics)
             m = 1 ->
           Dict.get m t = Some vals) /\
          (forall l,
             Dict.get m t = Some l ->
             List.length l =
               count_occ string_dec
                 (Score.requested MoleculeCaptionEvaluator.default_metrics
                    metrics) m *
               List.length predictions)) /\
   (forall m,
      (forall ms, metrics = Some ms -> NoDup ms) ->
      In m (Score.requested MoleculeCaptionEvaluator.default_metrics metrics) ->
      count_occ string_dec
        (Score.requested MoleculeCaptionEvaluator.default_metrics metrics) m =
      1) /\
   ((forall pair m,
       In pair (combine predictions references) ->
       In m (Score.requested MoleculeCaptionEvaluator.default_metrics metrics) ->
       returns (Score.caption_pair L pair m)) ->
    exists t,
      MoleculeCaptionEvaluator.evaluate L predictions references metrics
        false = ([], Ret t) /\
      ((forall item, In item t -> returns (np_mean L (snd item))) ->
       exists out,
         MoleculeCaptionEvaluator.evaluate L predictions references metrics
           true = (out, Ret t)))).
Proof.
  intros Hlen.
  assert (Hpairs : List.length (combine predictions references) =
                   List.length predictions).
  { rewrite length_combine, <- Hlen. apply Nat.min_id. }
  split; (split; [| split]).
  - intros out t Hcall m Hm. apply smiles_evaluate_Ret in Hcall.
    destruct (run_scores L _ _ _ _ Hcall m Hm)
      as (vals & Hvals & Hn & Hget & Hone & Hl).
    exists vals. rewrite Hpairs in Hn, Hl. repeat split; assumption.
  - intros m Hnd Hm. apply count_occ_NoDup_In; [| exact Hm].
    apply NoDup_requested; [apply NoDup_smiles_default | exact Hnd].
  - intros Hscores. rewrite !smiles_evaluate_run.
    destruct (run_returns_report L _ _ _ Hscores) as (t & Ht & Hrep).
    rewrite Ht. exists t. split; [reflexivity | exact Hrep].
  - intros out t Hcall m Hm. apply caption_evaluate_Ret in Hcall.
    destruct (run_scores L _ _ _ _ Hcall m Hm)
      as (vals & Hvals & Hn & Hget & Hone & Hl).
    exists vals. rewrite Hpairs in Hn, Hl. repeat split; assumption.
  - intros m Hnd Hm. apply count_occ_NoDup_In; [| exact Hm].
    apply NoDup_requested; [apply NoDup_caption_default | exact Hnd].
  - intros Hscores. rewrite !caption_evaluate_run.
    destruct (run_returns_report L _ _ _ Hscores) as (t & Ht & Hrep).
    rewrite Ht. exists t. split; [reflexivity | exact Hrep].
Qed.

(** Two pairs, the second with a prediction that does not parse; [validity]
    is listed once and [levenshtein] twice. *)
Lemma C2_one_score_per_pair_witness :
  List.length ["[C][O]"; "[X]"] = List.length ["[C][C]"; "[C]"] /\
  MoleculeSMILESEvaluator.evaluate Symbolic.lib ["[C][O]"; "[X]"]
    ["[C][C]"; "[C]"] (Some ["levenshtein"; "validity"; "levenshtein"]) false =
    ([], Ret [("levenshtein", [VInt 1; VInt 1; VInt 0; VInt 0]);
              ("validity", [VBool true; VInt 0])]) /\
  forall m, In m ["levenshtein"; "validity"; "levenshtein"] ->
    exists vals,
      Forall2 (fun pair v => Score.smiles_pair Symbolic.lib pair m = Ret v)
        (combine ["[C][O]"; "[X]"] ["[C][C]"; "[C]"]) vals /\
      List.length vals = List.length ["[C][O]"; "[X]"] /\
      Dict.get m
        ([("levenshtein", [VInt 1; VInt 1; VInt 0; VInt 0]);
          ("validity", [VBool true; VInt 0])] : table Symbolic.lib) =
        Some (flat_map
                (fun v =>
                   repeat v
                     (count_occ string_dec
                        (Score.requested
                           MoleculeSMILESEvaluator.default_metrics
                           (Some ["levenshtein"; "validity"; "levenshtein"]))
                        m))
                vals) /\
      (count_occ string_dec
         (Score.requested MoleculeSMILESEvaluator.default_metrics
            (Some ["levenshtein"; "validity"; "levenshtein"])) m = 1 ->
       Dict.get m
         ([("levenshtein", [VInt 1; VInt 1; VInt 0; VInt 0]);
           ("validity", [VBool true; VInt 0])] : table Symbolic.lib) =
         Some vals) /\
      (forall l,
         Dict.get m
           ([("levenshtein", [VInt 1; VInt 1; VInt 0; VInt 0]);
             ("validity", [VBool true; VInt 0])] : table Symbolic.lib) =
           Some l ->
         List.length l =
           count_occ string_dec
             (Score.requested MoleculeSMILESEvaluator.default_metrics
                (Some ["levenshtein"; "validity"; "levenshtein"])) m *
           List.length ["[C][O]"; "[X]"]).
Proof.
  split; [reflexivity |]. split; [reflexivity |].
  exact (proj1 (proj1 (C2_one_score_per_pair Symbolic.lib ["[C][O]"; "[X]"]
                         ["[C][C]"; "[C]"]
                         (Some ["levenshtein"; "validity"; "levenshtein"])
                         false eq_refl))
           [] _ eq_refl).
Defined.

(** ** Which failures the structure evaluator absorbs *)

Lemma exact_match_conversion_failure (L : Library) (a b : string) :
  raises (MolToInchi L (MolFromSmiles L a)) \/
  raises (MolToInchi L (MolFromSmiles L b)) ->
  exact_match L a b = 0%Z.
Proof.
  unfold exact_match. intros [[e He] | [e He]]; rewrite He.
  - reflexivity.
  - destruct (MolToInchi L (MolFromSmiles L a)); reflexivity.
Qed.

Lemma smiles_pair_total_metrics (L : Library) (pair : string * string)
  (metric : string) :
  In metric ["levenshtein"; "exact_match"; "validity"] ->
  returns (Score.smiles_pair L pair metric).
Proof.
  intros Hin. unfold Score.smiles_pair.
  destruct (MoleculeSMILESEvaluator.build_evaluate_tuple L (fst pair) (snd pair))
    as [[p |] [g |]];
    try (exists (VInt 0); reflexivity).
  destruct Hin as [<- | [<- | [<- | []]]]; eexists; reflexivity.
Qed.

(** C3. The code at the failing input: the empty prediction with the
    reference [[C]], under the default metrics. The empty string decodes to
    the empty string, which parses and canonicalizes to the empty string, so
    the pair passes the null guard. For [bleu] the loop calls
    [sentence_bleu(pred, gt)], the normalized prediction in the place of the
    references: the scorer raises on the empty references, nothing around
    the call catches it, and [evaluate] raises instead of returning a table.
    With the arguments in the places the caption evaluator gives them,
    [sentence_bleu([gt], pred)], the scorer returns on these texts, and
    without [bleu] the call on this input returns a table. *)
Theorem C3_exception_escapes_at_failing_input :
  MoleculeSMILESEvaluator.build_evaluate_tuple Symbolic.lib EmptyString "[C]" =
    (Some EmptyString, Some "C") /\
  sentence_bleu Symbolic.lib (VStr EmptyString) (VStr "C") None =
    Raise (LibraryError "ScorerError") /\
  Score.smiles_pair Symbolic.lib (EmptyString, "[C]") "bleu" =
    Raise (LibraryError "ScorerError") /\
  MoleculeSMILESEvaluator.evaluate Symbolic.lib [EmptyString] ["[C]"] None
    false = ([], Raise (LibraryError "ScorerError")) /\
  ~ (exists out t,
       MoleculeSMILESEvaluator.evaluate Symbolic.lib [EmptyString] ["[C]"] None
         false = (out, Ret t)) /\
  returns (sentence_bleu Symbolic.lib (VStrList ["C"]) (VStr EmptyString)
             None) /\
  (forall m,
     In m MoleculeSMILESEvaluator.default_metrics -> m <> "bleu" ->
     returns (Score.smiles_pair Symbolic.lib (EmptyString, "[C]") m)) /\
  returns
    (snd (MoleculeSMILESEvaluator.evaluate Symbolic.lib [EmptyString] ["[C]"]
            (Some (filter (fun m => negb (String.eqb m "bleu"))
                     MoleculeSMILESEvaluator.default_metrics))
            false)).
Proof.
  split; [reflexivity |]. split; [reflexivity |]. split; [reflexivity |].
  split; [reflexivity |]. split; [| split; [| split]].
  - intros (out & t & H). discriminate H.
  - eexists. reflexivity.
  - intros m Hm Hbleu. unfold MoleculeSMILESEvaluator.default_metrics in Hm.
    simpl in Hm.
    repeat (destruct Hm as [<- | Hm];
            [first [contradiction Hbleu; reflexivity | eexists; reflexivity] |]).
    contradiction Hm.
  - eexists. reflexivity.
Qed.

(** ** The caption evaluator *)

(** C7. In the caption evaluator:
    - [build_evaluate_tuple] hands both texts back unchanged;
    - the body of the metric loop appends, with no guard before it and no
      handler around it, the result of the metric function called on
      [[gt]] and [pred];
    - the first exception that the calls meet, going through the pairs in
      order and through the metrics in order for each pair, is the outcome
      of [evaluate], with nothing printed and no table;
    - so if any metric function raises on any pair, [evaluate] raises;
    - and a table that [evaluate] returns is full: under every requested
      metric it holds, for each pair in input order, the score of that pair
      once per occurrence of the metric in the list. *)
Theorem C7_caption_no_guard (L : Library)
  (predictions references : list string) (metrics : option (list string))
  (verbose : bool) :
  (forall pred gt,
     MoleculeCaptionEvaluator.build_evaluate_tuple pred gt = (pred, gt)) /\
  (forall pred gt results metric,
     MoleculeCaptionEvaluator.evaluate_metric L pred gt results metric =
     append_to results metric
       (call_metric (MoleculeCaptionEvaluator._metric_functions L) metric
          [VStrList [gt]; VStr pred])) /\
  (forall e,
     mapM (fun pair =>
             mapM (Score.caption_pair L pair)
               (Score.requested MoleculeCaptionEvaluator.default_metrics
                  metrics))
       (combine predictions references) = Raise e ->
     MoleculeCaptionEvaluator.evaluate L predictions references metrics
       verbose = ([], Raise e)) /\
  (forall pair metric,
     In pair (combine predictions references) ->
     In metric
       (Score.requested MoleculeCaptionEvaluator.default_metrics metrics) ->
     raises (Score.caption_pair L pair metric) ->
     exists e,
       MoleculeCaptionEvaluator.evaluate L predictions references metrics
         verbose = ([], Raise e)) /\
  (forall out t,
     MoleculeCaptionEvaluator.evaluate L predictions references metrics
       verbose = (out, Ret t) ->
     forall metric,
       In metric
         (Score.requested MoleculeCaptionEvaluator.default_metrics metrics) ->
       exists vals,
         Forall2 (fun pair v => Score.caption_pair L pair metric = Ret v)
           (combine predictions references) vals /\
         Dict.get metric t =
           Some (flat_map
                   (fun v =>
                      repeat v
                        (count_occ string_dec
                           (Score.requested
                              MoleculeCaptionEvaluator.default_metrics metrics)
                           metric))
                   vals)).
Proof.
  split; [reflexivity |]. split; [reflexivity |].
  split; [| split].
  - intros e Hmap. rewrite caption_evaluate_run.
    apply scoring_raises in Hmap. rewrite Hmap. reflexivity.
  - intros pair metric Hp Hm Hraise. rewrite caption_evaluate_run.
    destruct (Score.run _ _ _) as [t | e] eqn:Hrun; [| exists e; reflexivity].
    exfalso. apply (returns_not_raises (Score.caption_pair L pair metric));
      [| exact Hraise].
    apply (proj1 (scoring_returns L (Score.caption_pair L)
                    (Score.requested MoleculeCaptionEvaluator.default_metrics
                       metrics)
                    (combine predictions references)));
      [rewrite Hrun; exists t; reflexivity | exact Hp | exact Hm].
  - intros out t Hcall metric Hm. apply caption_evaluate_Ret in Hcall.
    destruct (scoring_table L _ _ _ _ Hcall) as (_ & _ & Hin).
    destruct (Hin metric Hm) as (vals & Hvals & Hget).
    exists vals. split; assumption.
Qed.

(** The rouge scorer raises on the second pair's empty prediction, and the
    call, which had scored the first pair, raises that exception. *)
Lemma C7_caption_no_guard_witness :
  In (EmptyString, "d") (combine ["a b"; EmptyString] ["a"; "d"]) /\
  In "rouge-1" (Score.requested MoleculeCaptionEvaluator.default_metrics None) /\
  raises (Score.caption_pair Symbolic.lib (EmptyString, "d") "rouge-1") /\
  MoleculeCaptionEvaluator.evaluate Symbolic.lib ["a b"; EmptyString] ["a"; "d"] None
    false = ([], Raise (LibraryError "ScorerError")) /\
  exists e,
    MoleculeCaptionEvaluator.evaluate Symbolic.lib ["a b"; EmptyString] ["a"; "d"] None
      false = ([], Raise e).
Proof.
  assert (Hp : In (EmptyString, "d") (combine ["a b"; EmptyString] ["a"; "d"]))
    by (right; left; reflexivity).
  assert (Hm : In "rouge-1"
                 (Score.requested MoleculeCaptionEvaluator.default_metrics None))
    by (do 3 right; left; reflexivity).
  assert (Hr : raises (Score.caption_pair Symbolic.lib (EmptyString, "d") "rouge-1"))
    by (eexists; reflexivity).
  split; [exact Hp |]. split; [exact Hm |]. split; [exact Hr |].
  split; [reflexivity |].
  exact (proj1 (proj2 (proj2 (proj2
           (C7_caption_no_guard Symbolic.lib ["a b"; EmptyString] ["a"; "d"] None
              false))))
           (EmptyString, "d") "rouge-1" Hp Hm Hr).
Defined.

(** ** Lists of unequal length *)

Lemma combine_truncate {A B : Type} (l : list A) (l' : list B) :
  combine (firstn (Nat.min (List.length l) (List.length l')) l)
    (firstn (Nat.min (List.length l) (List.length l')) l') =
  combine l l'.
Proof.
  rewrite <- combine_firstn, <- length_combine. apply firstn_all.
Qed.

(** C8, as stated, fails on a metric that is requested twice: with two
    predictions, one reference and [metrics = ["validity", "validity"]] the
    call scores the one pair [zip] makes and returns
    [{"validity": [True, True]}], a list of length 2 where the truncated
    length is 1. *)
Lemma C8_counterexample_repeated_metric :
  Nat.min (List.length ["[C]"; "[C][C]"]) (List.length ["[C]"]) = 1 /\
  MoleculeSMILESEvaluator.evaluate Symbolic.lib ["[C]"; "[C][C]"] ["[C]"]
    (Some ["validity"; "validity"]) false =
    ([], Ret [("validity", [VBool true; VBool true])]) /\
  ~ (exists out t,
       MoleculeSMILESEvaluator.evaluate Symbolic.lib ["[C]"; "[C][C]"] ["[C]"]
         (Some ["validity"; "validity"]) false = (out, Ret t) /\
       forall m, In m ["validity"; "validity"] ->
         exists l,
           Dict.get m t = Some l /\
           List.length l =
             Nat.min (List.length ["[C]"; "[C][C]"]) (List.length ["[C]"])).
Proof.
  split; [reflexivity |]. split; [reflexivity |].
  intros (out & t & Hcall & Hlen).
  injection Hcall as _ <-.
  destruct (Hlen "validity" (or_introl eq_refl)) as (l & Hget & Hl).
  injection Hget as <-. discriminate Hl.
Qed.

(** C8, amended. On either evaluator a call with lists of unequal length is
    the call on the two lists cut to the length [n] of the shorter one: the
    same printed lines and the same table or the same exception, so the
    surplus is ignored and the mismatch itself raises nothing. In a table
    that the call returns, a requested metric's list has [n] entries for
    each time the metric occurs in the metrics list, hence exactly [n] for a
    metric listed once. *)
Theorem C8_scores_shorter_length (L : Library)
  (predictions references : list string) (metrics : option (list string))
  (verbose : bool) :
  let n := Nat.min (List.length predictions) (List.length references) in
  MoleculeSMILESEvaluator.evaluate L predictions references metrics verbose =
    MoleculeSMILESEvaluator.evaluate L (firstn n predictions)
      (firstn n references) metrics verbose /\
  MoleculeCaptionEvaluator.evaluate L predictions references metrics verbose =
    MoleculeCaptionEvaluator.evaluate L (firstn n predictions)
      (firstn n references) metrics verbose /\
  (forall out t,
     MoleculeSMILESEvaluator.evaluate L predictions references metrics
       verbose = (out, Ret t) ->
     forall m,
       In m (Score.requested MoleculeSMILESEvaluator.default_metrics metrics) ->
       exists l,
         Dict.get m t = Some l /\
         List.length l =
           count_occ string_dec
             (Score.requested MoleculeSMILESEvaluator.default_metrics metrics)
             m * n) /\
  (forall out t,
     MoleculeCaptionEvaluator.evaluate L predictions references metrics
       verbose = (out, Ret t) ->
     forall m,
       In m (Score.requested MoleculeCaptionEvaluator.default_metrics metrics) ->
       exists l,
         Dict.get m t = Some l /\
         List.length l =
           count_occ string_dec
             (Score.requested MoleculeCaptionEvaluator.default_metrics metrics)
             m * n).
Proof.
  intros n. split; [| split; [| split]].
  - rewrite !smiles_evaluate_run. unfold n. rewrite combine_truncate.
    reflexivity.
  - rewrite !caption_evaluate_run. unfold n. rewrite combine_truncate.
    reflexivity.
  - intros out t Hcall m Hm. apply smiles_evaluate_Ret in Hcall.
    destruct (run_lengths L _ _ _ _ Hcall m Hm) as (l & Hget & Hl).
    exists l. split; [exact Hget |]. rewrite Hl, length_combine. reflexivity.
  - intros out t Hcall m Hm. apply caption_evaluate_Ret in Hcall.
    destruct (run_lengths L _ _ _ _ Hcall m Hm) as (l & Hget & Hl).
    exists l. split; [exact Hget |]. rewrite Hl, length_combine. reflexivity.
Qed.

(** Three predictions against two references: two pairs are scored and
    the third prediction is ignored. *)
Lemma C8_scores_shorter_length_witness :
  MoleculeSMILESEvaluator.evaluate Symbolic.lib ["[C]"; "[X]"; "[C][C]"]
    ["[C]"; "[C]"] (Some ["validity"]) false =
    ([], Ret [("validity", [VBool true; VInt 0])]) /\
  exists l,
    Dict.get "validity"
      ([("validity", [VBool true; VInt 0])] : table Symbolic.lib) = Some l /\
    List.length l =
      count_occ string_dec (Score.requested [] (Some ["validity"])) "validity" *
      Nat.min (List.length ["[C]"; "[X]"; "[C][C]"]) (List.length ["[C]"; "[C]"]).
Proof.
  split; [reflexivity |].
  exact (proj1 (proj2 (proj2
           (C8_scores_shorter_length Symbolic.lib ["[C]"; "[X]"; "[C][C]"]
              ["[C]"; "[C]"] (Some ["validity"]) false)))
           [] _ eq_refl "validity" (or_introl eq_refl)).
Defined.

(** ** A metric requested more than once *)

Lemma get_Some_keys {V : Type} (k : string) (v : V) (d : Dict.t V) :
  Dict.get k d = Some v -> In k (Dict.keys d).
Proof.
  intros Hget. destruct (in_dec string_dec k (Dict.keys d)) as [Hin | Hout].
  - exact Hin.
  - apply get_None_keys in Hout. rewrite Hout in Hget. discriminate Hget.
Qed.

Lemma run_chunks (L : Library)
  (compute : string * string -> string -> result (value L))
  (metrics : list string) (pairs : list (string * string)) (t : table L) :
  Score.run compute metrics pairs = Ret t ->
  NoDup (Dict.keys t) /\
  forall m, In m metrics ->
    count_occ string_dec (Dict.keys t) m = 1 /\
    exists chunks,
      Dict.get m t = Some (List.concat chunks) /\
      List.length chunks = List.length pairs /\
      Forall (fun c => List.length c = count_occ string_dec metrics m) chunks /\
      Forall (fun c => exists v, c = repeat v (count_occ string_dec metrics m))
        chunks /\
      List.length (List.concat chunks) =
        count_occ string_dec metrics m * List.length pairs.
Proof.
  intros Hrun.
  destruct (scoring_table L _ _ _ _ Hrun) as (Hnd & _ & Hin).
  split; [exact Hnd |]. intros m Hm.
  destruct (Hin m Hm) as (vals & Hvals & Hget).
  split.
  - apply NoDup_count_occ'; [exact Hnd |].
    eapply get_Some_keys. exact Hget.
  - exists (map (fun v => repeat v (count_occ string_dec metrics m)) vals).
    rewrite <- flat_map_concat_map. split; [exact Hget |].
    split; [rewrite length_map; symmetry; apply (Forall2_length Hvals) |].
    split; [| split].
    + apply Forall_map, Forall_forall. intros v _. apply repeat_length.
    + apply Forall_map, Forall_forall. intros v _. exists v. reflexivity.
    + rewrite flat_map_repeat_length, (Forall2_length Hvals). reflexivity.
Qed.

(** C9. Whenever a call of either evaluator with the metrics list [ms]
    returns a table, the keys of the table are distinct, and a name that
    occurs [k] times in [ms] is one key whose list is made of one chunk per
    input pair, each chunk being one score repeated [k] times: the list has
    [k] times as many entries as there are pairs. *)
Theorem C9_repeated_metric_multiplies (L : Library)
  (predictions references ms : list string) (verbose : bool)
  (out : list string) (t : table L) :
  MoleculeSMILESEvaluator.evaluate L predictions references (Some ms) verbose =
    (out, Ret t) \/
  MoleculeCaptionEvaluator.evaluate L predictions references (Some ms) verbose =
    (out, Ret t) ->
  NoDup (Dict.keys t) /\
  forall m, In m ms ->
    count_occ string_dec (Dict.keys t) m = 1 /\
    exists chunks,
      Dict.get m t = Some (List.concat chunks) /\
      List.length chunks = List.length (combine predictions references) /\
      Forall (fun c => List.length c = count_occ string_dec ms m) chunks /\
      Forall (fun c => exists v, c = repeat v (count_occ string_dec ms m))
        chunks /\
      List.length (List.concat chunks) =
        count_occ string_dec ms m *
        List.length (combine predictions references).
Proof.
  intros [Hcall | Hcall].
  - apply smiles_evaluate_Ret in Hcall. exact (run_chunks L _ _ _ _ Hcall).
  - apply caption_evaluate_Ret in Hcall. exact (run_chunks L _ _ _ _ Hcall).
Qed.

(** Two pairs and [meteor] requested twice: one key, four entries. *)
Lemma C9_repeated_metric_multiplies_witness :
  MoleculeCaptionEvaluator.evaluate Symbolic.lib ["a b"; "c"] ["a"; "d"]
    (Some ["meteor"; "meteor"]) false =
    ([], Ret [("meteor",
               [VFloat "meteor_score(['a'], 'a b')";
                VFloat "meteor_score(['a'], 'a b')";
                VFloat "meteor_score(['d'], 'c')";
                VFloat "meteor_score(['d'], 'c')"])]) /\
  count_occ string_dec ["meteor"; "meteor"] "meteor" = 2 /\
  exists chunks,
    Dict.get "meteor"
      ([("meteor",
         [VFloat "meteor_score(['a'], 'a b')";
          VFloat "meteor_score(['a'], 'a b')";
          VFloat "meteor_score(['d'], 'c')";
          VFloat "meteor_score(['d'], 'c')"])] : table Symbolic.lib) =
      Some (List.concat chunks) /\
    List.length chunks = List.length (combine ["a b"; "c"] ["a"; "d"]) /\
    Forall (fun c => List.length c =
                     count_occ string_dec ["meteor"; "meteor"] "meteor") chunks /\
    Forall (fun c => exists v,
                c = repeat v (count_occ string_dec ["meteor"; "meteor"] "meteor"))
      chunks /\
    List.length (List.concat chunks) =
      count_occ string_dec ["meteor"; "meteor"] "meteor" *
      List.length (combine ["a b"; "c"] ["a"; "d"]).
Proof.
  split; [reflexivity |]. split; [reflexivity |].
  exact (proj2 (proj2 (C9_repeated_metric_multiplies Symbolic.lib
                         ["a b"; "c"] ["a"; "d"] ["meteor"; "meteor"] false []
                         _ (or_intror eq_refl))
                  "meteor" (or_introl eq_refl))).
Defined.

(** ** A metric name that is not in the table *)








(** * Further properties of the evaluators *)

(** ** [exact_match] *)

(** X1. [exact_match] is 1 exactly when the InChI conversions of both parsed
    strings return and return the same text, and 0 in every other case
    (a conversion raising included); its value does not change when its two
    arguments are exchanged. *)
Theorem X1_exact_match_characterised (L : Library) (a b : string) :
  (exact_match L a b = 1%Z <->
   exists i,
     MolToInchi L (MolFromSmiles L a) = Ret i /\
     MolToInchi L (MolFromSmiles L b) = Ret i) /\
  (exact_match L a b = 0%Z \/ exact_match L a b = 1%Z) /\
  exact_match L a b = exact_match L b a.
Proof.
  unfold exact_match.
  destruct (MolToInchi L (MolFromSmiles L a)) as [ia | ea];
    destruct (MolToInchi L (MolFromSmiles L b)) as [ib | eb].
  - destruct (String.eqb ia ib) eqn:Heq.
    + apply String.eqb_eq in Heq. subst ib. rewrite String.eqb_refl.
      split; [| split; [right |]; reflexivity].
      split; [intros _; exists ia; split; reflexivity | reflexivity].
    + rewrite String.eqb_sym, Heq.
      split; [| split; [left |]; reflexivity].
      split; [discriminate |].
      intros (i & Ha & Hb). injection Ha as <-. injection Hb as <-.
      rewrite String.eqb_refl in Heq. discriminate Heq.
  - split; [| split; [left |]; reflexivity].
    split; [discriminate | intros (i & _ & Hb); discriminate Hb].
  - split; [| split; [left |]; reflexivity].
    split; [discriminate | intros (i & Ha & _); discriminate Ha].
  - split; [| split; [left |]; reflexivity].
    split; [discriminate | intros (i & Ha & _); discriminate Ha].
Qed.

(** ** A normalized string that does not parse again *)

Lemma on_mols_of_mol (L : Library)
  (f : option (Mol L) -> option (Mol L) -> result (value L))
  (a b : option (Mol L)) :
  on_mols f [of_mol a; of_mol b] = f a b.
Proof. destruct a, b; reflexivity. Qed.

Lemma append_to_raises (L : Library) (results : table L) (metric : string)
  (r : result (value L)) :
  raises r -> raises (append_to results metric r).
Proof.
  intros [e He]. subst r. unfold append_to.
  destruct (Dict.getitem results metric) as [scores | e'];
    [exists e | exists e']; reflexivity.
Qed.

Lemma similarity_raises (L : Library) (F : Type)
  (gen : option (Mol L) -> result F) (sim : F -> F -> result (Float L))
  (ot_m gt_m : option (Mol L)) :
  ot_m = None \/ gt_m = None ->
  raises (gen None) ->
  raises (as_float (a <- gen gt_m ;; b <- gen ot_m ;; sim a b)).
Proof.
  intros Hnone [e He].
  destruct gt_m as [g |].
  - destruct Hnone as [-> | Hg]; [| discriminate Hg].
    destruct (gen (Some g)) as [a | e']; simpl.
    + rewrite He. exists e. reflexivity.
    + exists e'. reflexivity.
  - rewrite He. exists e. reflexivity.
Qed.

(** X2. On a normalized pair one of whose strings [Chem.MolFromSmiles]
    does not parse again, with a library whose InChI conversion and
    fingerprint generators raise on [None]: [exact_match] absorbs the
    failure and the score appended is 0, while each of the three
    fingerprint metrics hands [None] to its generator unguarded and the pass
    raises. *)
Theorem X2_failed_reparse_absorbed_only_by_exact_match (L : Library)
  (p g : string) (results : table L) :
  MolFromSmiles L p = None \/ MolFromSmiles L g = None ->
  raises (MolToInchi L None) ->
  raises (GenMACCSKeys L None) ->
  raises (GetMorganFingerprint L None 2) ->
  raises (RDKFingerprint L None) ->
  MoleculeSMILESEvaluator.evaluate_metric L (Some p) (Some g) results
    "exact_match" = append_to results "exact_match" (Ret (VInt 0)) /\
  raises (MoleculeSMILESEvaluator.evaluate_metric L (Some p) (Some g) results
            "maccs_sims") /\
  raises (MoleculeSMILESEvaluator.evaluate_metric L (Some p) (Some g) results
            "morgan_sims") /\
  raises (MoleculeSMILESEvaluator.evaluate_metric L (Some p) (Some g) results
            "rdk_sims").
Proof.
  intros Hnone Hinchi Hmaccs Hmorgan Hrdk.
  split; [| split; [| split]].
  - change (MoleculeSMILESEvaluator.evaluate_metric L (Some p) (Some g) results
              "exact_match")
      with (append_to results "exact_match"
              (Ret (VInt (exact_match L p g)))).
    rewrite exact_match_conversion_failure; [reflexivity |].
    destruct Hnone as [H | H]; rewrite H; [left | right]; exact Hinchi.
  - change (MoleculeSMILESEvaluator.evaluate_metric L (Some p) (Some g) results
              "maccs_sims")
      with (append_to results "maccs_sims"
              (on_mols (fun a b => as_float (maccs_similarity L a b))
                 [of_mol (MolFromSmiles L p); of_mol (MolFromSmiles L g)])).
    apply append_to_raises. rewrite on_mols_of_mol.
    apply (similarity_raises L _ (GenMACCSKeys L)
             (fun a b => FingerprintSimilarity L a b (TanimotoSimilarity L)));
      assumption.
  - change (MoleculeSMILESEvaluator.evaluate_metric L (Some p) (Some g) results
              "morgan_sims")
      with (append_to results "morgan_sims"
              (on_mols (fun a b => as_float (morgan_similarity L a b 2))
                 [of_mol (MolFromSmiles L p); of_mol (MolFromSmiles L g)])).
    apply append_to_raises. rewrite on_mols_of_mol.
    apply (similarity_raises L _ (fun m => GetMorganFingerprint L m 2)
             (TanimotoSimilaritySparse L));
      assumption.
  - change (MoleculeSMILESEvaluator.evaluate_metric L (Some p) (Some g) results
              "rdk_sims")
      with (append_to results "rdk_sims"
              (on_mols (fun a b => as_float (rdk_similarity L a b))
                 [of_mol (MolFromSmiles L p); of_mol (MolFromSmiles L g)])).
    apply append_to_raises. rewrite on_mols_of_mol.
    apply (similarity_raises L _ (RDKFingerprint L)
             (fun a b => FingerprintSimilarity L a b (TanimotoSimilarity L)));
      assumption.
Qed.

(** The string [X] does not parse in the symbolic library. *)
Lemma X2_failed_reparse_absorbed_only_by_exact_match_witness :
  (MolFromSmiles Symbolic.lib "X" = None \/
   MolFromSmiles Symbolic.lib "C" = None) /\
  raises (MolToInchi Symbolic.lib None) /\
  raises (GenMACCSKeys Symbolic.lib None) /\
  raises (GetMorganFingerprint Symbolic.lib None 2) /\
  raises (RDKFingerprint Symbolic.lib None) /\
  MoleculeSMILESEvaluator.evaluate_metric Symbolic.lib (Some "X") (Some "C")
    [("exact_match", [])] "exact_match" =
    append_to [("exact_match", [])] "exact_match" (Ret (VInt 0)) /\
  raises (MoleculeSMILESEvaluator.evaluate_metric Symbolic.lib (Some "X")
            (Some "C") [("exact_match", [])] "maccs_sims").
Proof.
  assert (H1 : MolFromSmiles Symbolic.lib "X" = None \/
               MolFromSmiles Symbolic.lib "C" = None) by (left; reflexivity).
  assert (H2 : raises (MolToInchi Symbolic.lib None))
    by (eexists; reflexivity).
  assert (H3 : raises (GenMACCSKeys Symbolic.lib None))
    by (eexists; reflexivity).
  assert (H4 : raises (GetMorganFingerprint Symbolic.lib None 2))
    by (eexists; reflexivity).
  assert (H5 : raises (RDKFingerprint Symbolic.lib None))
    by (eexists; reflexivity).
  pose proof (X2_failed_reparse_absorbed_only_by_exact_match Symbolic.lib
                "X" "C" [("exact_match", [])] H1 H2 H3 H4 H5) as (Ha & Hb & _).
  repeat (split; [assumption |]). exact Hb.
Defined.

(** ** No pairs *)

Lemma get_empty_lists_nil (L : Library) (metrics : list string) (k : string)
  (l : list (value L)) :
  Dict.get k (empty_lists L metrics) = Some l -> l = [].
Proof.
  unfold empty_lists. rewrite get_fold_set.
  destruct (existsb (String.eqb k) metrics); simpl; intros H.
  - injection H as <-. reflexivity.
  - discriminate H.
Qed.

Lemma set_nil_items {V : Type} (k : string) (d : Dict.t (list V)) :
  Forall (fun item => snd item = []) d ->
  Forall (fun item => snd item = []) (Dict.set k [] d).
Proof.
  induction d as [| [k' v] d IH]; simpl; intros H.
  - constructor; [reflexivity | constructor].
  - inversion H as [| item d' Hv Hd]; subst.
    destruct (String.eqb k k'); constructor; auto.
Qed.

Lemma empty_lists_items_nil (L : Library) (metrics : list string) :
  Forall (fun item => snd item = []) (empty_lists L metrics).
Proof.
  unfold empty_lists.
  assert (H : forall d : table L,
            Forall (fun item => snd item = []) d ->
            Forall (fun item => snd item = [])
              (fold_left (fun d metric => Dict.set metric [] d) metrics d)).
  { induction metrics as [| m metrics IH]; simpl; intros d Hd.
    - exact Hd.
    - apply IH, set_nil_items, Hd. }
  apply H. constructor.
Qed.

(** X3. When [predictions] or [references] is empty, [zip] yields no pair:
    either evaluator, whether [metrics] is given or left to the default,
    goes straight to the report with the table that maps every requested
    name to the empty list. Without [verbose] it returns that table, without
    calling a scorer and without printing, whatever the names are (a name
    outside the metric table raises nothing here); with [verbose] it returns
    that table when the mean of the empty list returns. *)
Theorem X3_no_pairs_gives_empty_lists (L : Library)
  (predictions references : list string) (metrics : option (list string)) :
  predictions = [] \/ references = [] ->
  (forall verbose,
     MoleculeSMILESEvaluator.evaluate L predictions references metrics
       verbose =
     report verbose
       (empty_lists L
          (Score.requested MoleculeSMILESEvaluator.default_metrics metrics)) /\
     MoleculeCaptionEvaluator.evaluate L predictions references metrics
       verbose =
     report verbose
       (empty_lists L
          (Score.requested MoleculeCaptionEvaluator.default_metrics metrics))) /\
  MoleculeSMILESEvaluator.evaluate L predictions references metrics false =
    ([], Ret (empty_lists L
                (Score.requested MoleculeSMILESEvaluator.default_metrics
                   metrics))) /\
  MoleculeCaptionEvaluator.evaluate L predictions references metrics false =
    ([], Ret (empty_lists L
                (Score.requested MoleculeCaptionEvaluator.default_metrics
                   metrics))) /\
  (returns (np_mean L []) ->
   (exists out,
      MoleculeSMILESEvaluator.evaluate L predictions references metrics true =
      (out, Ret (empty_lists L
                   (Score.requested MoleculeSMILESEvaluator.default_metrics
                      metrics)))) /\
   (exists out,
      MoleculeCaptionEvaluator.evaluate L predictions references metrics true =
      (out, Ret (empty_lists L
                   (Score.requested MoleculeCaptionEvaluator.default_metrics
                      metrics))))) /\
  (forall ms m, In m ms -> Dict.get m (empty_lists L ms) = Some []) /\
  (forall ms m l, Dict.get m (empty_lists L ms) = Some l -> l = []).
Proof.
  intros Hempty.
  assert (Hnil : combine predictions references = []).
  { destruct Hempty as [-> | ->]; [reflexivity | apply combine_nil]. }
  assert (Hs : forall verbose,
            MoleculeSMILESEvaluator.evaluate L predictions references metrics
              verbose =
            report verbose
              (empty_lists L
                 (Score.requested MoleculeSMILESEvaluator.default_metrics
                    metrics))).
  { intros verbose. rewrite smiles_evaluate_run, Hnil. reflexivity. }
  assert (Hc : forall verbose,
            MoleculeCaptionEvaluator.evaluate L predictions references metrics
              verbose =
            report verbose
              (empty_lists L
                 (Score.requested MoleculeCaptionEvaluator.default_metrics
                    metrics))).
  { intros verbose. rewrite caption_evaluate_run, Hnil. reflexivity. }
  assert (Hrep : forall ms,
            returns (np_mean L []) ->
            exists out,
              report true (empty_lists L ms) = (out, Ret (empty_lists L ms))).
  { intros ms Hmean.
    destruct (print_means_returns L (empty_lists L ms)) as [lines Hl].
    - intros item Hitem.
      rewrite (proj1 (Forall_forall _ _) (empty_lists_items_nil L ms) item
                 Hitem).
      exact Hmean.
    - unfold report. rewrite Hl. eexists. reflexivity. }
  split; [intros verbose; split; [apply Hs | apply Hc] |].
  split; [rewrite Hs; reflexivity |].
  split; [rewrite Hc; reflexivity |].
  split; [| split].
  - intros Hmean. rewrite Hs, Hc. split; apply Hrep, Hmean.
  - intros ms m Hm. apply get_empty_lists_in, Hm.
  - intros ms m l. apply get_empty_lists_nil.
Qed.

(** Three predictions and no reference: the caption evaluator with a name
    that is in no table, and the structure evaluator with the default
    metrics. *)
Lemma X3_no_pairs_gives_empty_lists_witness :
  (["a"; "b"; "c"] = [] \/ @nil string = []) /\
  MoleculeCaptionEvaluator.evaluate Symbolic.lib ["a"; "b"; "c"] []
    (Some ["meteor"; "nope"]) false =
    ([], Ret [("meteor", []); ("nope", [])]) /\
  MoleculeSMILESEvaluator.evaluate Symbolic.lib ["a"; "b"; "c"] [] None false =
    ([], Ret [("levenshtein", []); ("exact_match", []); ("bleu", []);
              ("validity", []); ("maccs_sims", []); ("morgan_sims", []);
              ("rdk_sims", [])]).
Proof.
  assert (Hempty : ["a"; "b"; "c"] = [] \/ @nil string = [])
    by (right; reflexivity).
  split; [exact Hempty |]. split.
  - exact (proj1 (proj2 (proj2 (X3_no_pairs_gives_empty_lists Symbolic.lib
                                  ["a"; "b"; "c"] [] (Some ["meteor"; "nope"])
                                  Hempty)))).
  - exact (proj1 (proj2 (X3_no_pairs_gives_empty_lists Symbolic.lib
                           ["a"; "b"; "c"] [] None Hempty))).
Defined.

(** ** The verbose report *)

Lemma print_means_lines (L : Library) (items : list (string * list (value L))) :
  forall lines r,
    print_means items = (lines, r) ->
    exists done,
      Forall2 (fun item line =>
                 exists m,
                   np_mean L (snd item) = Ret m /\
                   line = fst item +++ ": " +++ format L m)
        done lines /\
      match r with
      | Ret _ => items = done
      | Raise e =>
          exists item rest,
            items = done ++ item :: rest /\ np_mean L (snd item) = Raise e
      end.
Proof.
  induction items as [| [metric values] items IH]; simpl; intros lines r H.
  - injection H as <- <-. exists []. split; [constructor | reflexivity].
  - destruct (np_mean L values) as [m | e] eqn:Hm.
    + destruct (print_means items) as [out r'] eqn:Hrest.
      injection H as <- <-.
      destruct (IH out r' eq_refl) as (done & Hdone & Hr).
      exists ((metric, values) :: done). split.
      * constructor; [exists m; split; [exact Hm | reflexivity] | exact Hdone].
      * destruct r' as [[] | e].
        -- rewrite Hr. reflexivity.
        -- destruct Hr as (item & rest & -> & He).
           exists item, rest. split; [reflexivity | exact He].
    + injection H as <- <-. exists []. split; [constructor |].
      exists (metric, values), items. split; [reflexivity | exact Hm].
Qed.

Lemma Forall2_In_left {A B : Type} (R : A -> B -> Prop) (xs : list A)
  (ys : list B) (x : A) :
  Forall2 R xs ys -> In x xs -> exists y, In y ys /\ R x y.
Proof.
  intros H. induction H as [| x' y xs ys Hxy _ IH]; intros Hin.
  - destruct Hin.
  - destruct Hin as [<- | Hin].
    + exists y. split; [left; reflexivity | exact Hxy].
    + destruct (IH Hin) as (y' & Hy' & Hr).
      exists y'. split; [right; exact Hy' | exact Hr].
Qed.

(** X4. The verbose report of either evaluator comes after the scoring and
    changes nothing in the table:
    - without [verbose] nothing is printed;
    - if the call without [verbose] raises, the call with [verbose] raises
      the same exception and prints nothing, not even the header;
    - if the call with [verbose] returns a table, the call without it
      returns the same table, and the output is the header followed by one
      line per key of the table, in the order of the keys, each made of the
      key, a colon and the formatted mean of that key's list;
    - if the call without [verbose] returns a table, the call with
      [verbose] returns it when the mean returns on every list of the table,
      and raises, after printing the header, when the mean raises on one. *)
Theorem X4_verbose_report (L : Library)
  (ev : list string -> list string -> option (list string) -> bool ->
        list string * result (table L))
  (predictions references : list string) (metrics : option (list string)) :
  ev = MoleculeSMILESEvaluator.evaluate L \/
  ev = MoleculeCaptionEvaluator.evaluate L ->
  fst (ev predictions references metrics false) = [] /\
  (forall e,
     ev predictions references metrics false = ([], Raise e) ->
     ev predictions references metrics true = ([], Raise e)) /\
  (forall out t,
     ev predictions references metrics true = (out, Ret t) ->
     ev predictions references metrics false = ([], Ret t) /\
     exists lines,
       out = "Evaluation results:" :: lines /\
       Forall2 (fun item line =>
                  exists m,
                    np_mean L (snd item) = Ret m /\
                    line = fst item +++ ": " +++ format L m)
         t lines) /\
  (forall t,
     ev predictions references metrics false = ([], Ret t) ->
     ((forall item, In item t -> returns (np_mean L (snd item))) ->
      exists out, ev predictions references metrics true = (out, Ret t)) /\
     (forall item, In item t -> raises (np_mean L (snd item)) ->
      exists lines e,
        ev predictions references metrics true =
        ("Evaluation results:" :: lines, Raise e))).
Proof.
  intros Hev.
  destruct (evaluate_shape L ev Hev) as (compute & default & Hshape).
  rewrite !Hshape.
  destruct (Score.run compute (Score.requested default metrics)
              (combine predictions references)) as [t0 | e0].
  - split; [reflexivity |]. split; [intros e H; discriminate H |]. split.
    + intros out t H. unfold report in H.
      destruct (print_means t0) as [lines r] eqn:Hprint.
      destruct r as [[] | e]; simpl in H; [| discriminate H].
      injection H as <- <-. split; [reflexivity |].
      exists lines. split; [reflexivity |].
      destruct (print_means_lines L t0 lines (Ret tt) Hprint)
        as (done & Hdone & ->).
      exact Hdone.
    + intros t H. injection H as <-. split.
      * intros Hall. destruct (print_means_returns L t0 Hall) as [lines Hl].
        unfold report. rewrite Hl. eexists. reflexivity.
      * intros item Hitem Hraise. unfold report.
        destruct (print_means t0) as [lines r] eqn:Hprint.
        destruct r as [[] | e]; simpl; [| exists lines, e; reflexivity].
        exfalso.
        destruct (print_means_lines L t0 lines (Ret tt) Hprint)
          as (done & Hdone & <-).
        apply (returns_not_raises (np_mean L (snd item))); [| exact Hraise].
        destruct (Forall2_In_left _ _ _ _ Hdone Hitem)
          as (line & _ & m & Hm & _).
        exists m. exact Hm.
  - split; [reflexivity |]. split; [intros e H; exact H |]. split.
    + intros out t H. discriminate H.
    + intros t H. discriminate H.
Qed.

(** The caption evaluator with a rouge metric: the call returns without
    [verbose]; with it, the mean raises on the list of score records after
    the header and the line of [meteor] are out. *)
Lemma X4_verbose_report_witness :
  (MoleculeCaptionEvaluator.evaluate Symbolic.lib =
     MoleculeSMILESEvaluator.evaluate Symbolic.lib \/
   MoleculeCaptionEvaluator.evaluate Symbolic.lib =
     MoleculeCaptionEvaluator.evaluate Symbolic.lib) /\
  MoleculeCaptionEvaluator.evaluate Symbolic.lib ["a"] ["b"]
    (Some ["meteor"; "rouge-1"]) false =
    ([], Ret [("meteor", [VFloat "meteor_score(['b'], 'a')"]);
              ("rouge-1", [VScores "rouge1: score(['b'], 'a')"])]) /\
  raises (np_mean Symbolic.lib [VScores "rouge1: score(['b'], 'a')"]) /\
  MoleculeCaptionEvaluator.evaluate Symbolic.lib ["a"] ["b"]
    (Some ["meteor"; "rouge-1"]) true =
    (["Evaluation results:"; "meteor: mean(meteor_score(['b'], 'a'))"],
     Raise TypeError) /\
  exists lines e,
    MoleculeCaptionEvaluator.evaluate Symbolic.lib ["a"] ["b"]
      (Some ["meteor"; "rouge-1"]) true =
    ("Evaluation results:" :: lines, Raise e).
Proof.
  assert (Hev : MoleculeCaptionEvaluator.evaluate Symbolic.lib =
                  MoleculeSMILESEvaluator.evaluate Symbolic.lib \/
                MoleculeCaptionEvaluator.evaluate Symbolic.lib =
                  MoleculeCaptionEvaluator.evaluate Symbolic.lib)
    by (right; reflexivity).
  assert (Hr : raises (np_mean Symbolic.lib
                         [VScores "rouge1: score(['b'], 'a')"]))
    by (eexists; reflexivity).
  split; [exact Hev |]. split; [reflexivity |]. split; [exact Hr |].
  split; [reflexivity |].
  exact (proj2 (proj2 (proj2 (proj2
           (X4_verbose_report Symbolic.lib _ ["a"] ["b"]
              (Some ["meteor"; "rouge-1"]) Hev)))
           _ eq_refl)
           ("rouge-1", [VScores "rouge1: score(['b'], 'a')"])
           (or_intror (or_introl eq_refl)) Hr).
Defined.

(** ** Calls on concatenated inputs *)

(** X5. Either evaluator scores a pair without regard to the pairs around
    it: for two batches, the first with as many predictions as references,
    the call (without [verbose]) on the concatenated batches
    - raises what the first batch raises, if the first batch raises;
    - raises what the second batch raises, if the first returns and the
      second raises;
    - and otherwise returns the table with the keys of the first batch's
      table under each of which the list is the first batch's list followed
      by the second batch's. *)
Theorem X5_batches_concatenate (L : Library)
  (ev : list string -> list string -> option (list string) -> bool ->
        list string * result (table L))
  (p1 r1 p2 r2 : list string) (metrics : option (list string)) :
  ev = MoleculeSMILESEvaluator.evaluate L \/
  ev = MoleculeCaptionEvaluator.evaluate L ->
  List.length p1 = List.length r1 ->
  match ev p1 r1 metrics false, ev p2 r2 metrics false with
  | (_, Raise e), _ =>
      ev (p1 ++ p2) (r1 ++ r2) metrics false = ([], Raise e)
  | (_, Ret _), (_, Raise e) =>
      ev (p1 ++ p2) (r1 ++ r2) metrics false = ([], Raise e)
  | (_, Ret t1), (_, Ret t2) =>
      exists t,
        ev (p1 ++ p2) (r1 ++ r2) metrics false = ([], Ret t) /\
        Dict.keys t = Dict.keys t1 /\
        Dict.keys t = Dict.keys t2 /\
        forall m,
          Dict.get m t =
          match Dict.get m t1, Dict.get m t2 with
          | Some l1, Some l2 => Some (l1 ++ l2)
          | _, _ => None
          end
  end.
Proof.
  intros Hev Hlen.
  destruct (evaluate_shape L ev Hev) as (compute & default & Hshape).
  rewrite !Hshape, (combine_app_same_length _ _ _ _ Hlen), !run_closed,
    mapM_app.
  set (ms := Score.requested default metrics).
  destruct (mapM (fun pair => mapM (compute pair) ms) (combine p1 r1))
    as [vss1 | e1]; simpl; [| reflexivity].
  destruct (mapM (fun pair => mapM (compute pair) ms) (combine p2 r2))
    as [vss2 | e2]; simpl; [| reflexivity].
  eexists. split; [reflexivity |].
  rewrite !keys_tabulate. split; [reflexivity |]. split; [reflexivity |].
  intros m. rewrite !get_tabulate.
  destruct (in_dec string_dec m (rev (nodup string_dec (rev ms))));
    [| reflexivity].
  rewrite flat_map_app. reflexivity.
Qed.

(** Two batches of one pair each; the second pair fails to normalize. *)
Lemma X5_batches_concatenate_witness :
  (MoleculeSMILESEvaluator.evaluate Symbolic.lib =
     MoleculeSMILESEvaluator.evaluate Symbolic.lib \/
   MoleculeSMILESEvaluator.evaluate Symbolic.lib =
     MoleculeCaptionEvaluator.evaluate Symbolic.lib) /\
  List.length ["[C][O]"] = List.length ["[C][C]"] /\
  MoleculeSMILESEvaluator.evaluate Symbolic.lib ["[C][O]"] ["[C][C]"]
    (Some ["levenshtein"]) false = ([], Ret [("levenshtein", [VInt 1])]) /\
  MoleculeSMILESEvaluator.evaluate Symbolic.lib ["[X]"] ["[C]"]
    (Some ["levenshtein"]) false = ([], Ret [("levenshtein", [VInt 0])]) /\
  exists t,
    MoleculeSMILESEvaluator.evaluate Symbolic.lib (["[C][O]"] ++ ["[X]"])
      (["[C][C]"] ++ ["[C]"]) (Some ["levenshtein"]) false = ([], Ret t) /\
    Dict.get "levenshtein" t = Some ([VInt 1] ++ [VInt 0]).
Proof.
  assert (Hev : MoleculeSMILESEvaluator.evaluate Symbolic.lib =
                  MoleculeSMILESEvaluator.evaluate Symbolic.lib \/
                MoleculeSMILESEvaluator.evaluate Symbolic.lib =
                  MoleculeCaptionEvaluator.evaluate Symbolic.lib)
    by (left; reflexivity).
  split; [exact Hev |]. split; [reflexivity |]. split; [reflexivity |].
  split; [reflexivity |].
  destruct (X5_batches_concatenate Symbolic.lib _ ["[C][O]"] ["[C][C]"]
              ["[X]"] ["[C]"] (Some ["levenshtein"]) Hev eq_refl)
    as (t & Ht & _ & _ & Hget).
  exists t. split; [exact Ht |]. exact (Hget "levenshtein").
Defined.

(** ** One metric among others *)

Lemma evaluate_shape_Ret (L : Library)
  (compute : string * string -> string -> result (value L))
  (ms : list string) (pairs : list (string * string)) (verbose : bool)
  (out : list string) (t : table L) :
  match Score.run compute ms pairs with
  | Raise e => ([], Raise e)
  | Ret t0 => report verbose t0
  end = (out, Ret t) ->
  Score.run compute ms pairs = Ret t.
Proof.
  destruct (Score.run compute ms pairs) as [t0 | e]; intros H;
    [| discriminate H].
  apply report_Ret in H. subst t0. reflexivity.
Qed.

Lemma Forall2_scores_unique {A B : Type} (f : A -> result B) (xs : list A)
  (vs vs' : list B) :
  Forall2 (fun x v => f x = Ret v) xs vs ->
  Forall2 (fun x v => f x = Ret v) xs vs' ->
  vs = vs'.
Proof.
  intros H H'. apply mapM_Forall2 in H. apply mapM_Forall2 in H'.
  rewrite H in H'. injection H' as <-. reflexivity.
Qed.

(** X6. What a metric scores does not depend on the other metrics of the
    call: if two calls of the same evaluator on the same predictions and
    references, with the metric lists [ms] and [ms'], both return, then a
    name that occurs equally often in [ms] and [ms'] (once in each, say) has
    the same list in both tables, wherever it stands in the lists and
    whatever [verbose] is. *)
Theorem X6_metric_scores_independent (L : Library)
  (ev : list string -> list string -> option (list string) -> bool ->
        list string * result (table L))
  (predictions references ms ms' : list string) (verbose verbose' : bool)
  (out out' : list string) (t t' : table L) (m : string) :
  ev = MoleculeSMILESEvaluator.evaluate L \/
  ev = MoleculeCaptionEvaluator.evaluate L ->
  ev predictions references (Some ms) verbose = (out, Ret t) ->
  ev predictions references (Some ms') verbose' = (out', Ret t') ->
  In m ms ->
  count_occ string_dec ms m = count_occ string_dec ms' m ->
  Dict.get m t = Dict.get m t'.
Proof.
  intros Hev Hcall Hcall' Hm Hcount.
  destruct (evaluate_shape L ev Hev) as (compute & default & Hshape).
  rewrite Hshape in Hcall, Hcall'.
  apply evaluate_shape_Ret in Hcall. apply evaluate_shape_Ret in Hcall'.
  simpl Score.requested in Hcall, Hcall'.
  assert (Hm' : In m ms').
  { apply (count_occ_In string_dec). rewrite <- Hcount.
    apply (count_occ_In string_dec), Hm. }
  destruct (scoring_table L _ _ _ _ Hcall) as (_ & _ & Htab).
  destruct (scoring_table L _ _ _ _ Hcall') as (_ & _ & Htab').
  destruct (Htab m Hm) as (vals & Hvals & Hget).
  destruct (Htab' m Hm') as (vals' & Hvals' & Hget').
  rewrite Hget, Hget', <- Hcount.
  rewrite (Forall2_scores_unique _ _ _ _ Hvals Hvals'). reflexivity.
Qed.

(** [levenshtein] alone, and last among three metrics. *)
Lemma X6_metric_scores_independent_witness :
  MoleculeSMILESEvaluator.evaluate Symbolic.lib ["[C][O]"; "[X]"]
    ["[C][C]"; "[C]"] (Some ["levenshtein"]) false =
    ([], Ret [("levenshtein", [VInt 1; VInt 0])]) /\
  MoleculeSMILESEvaluator.evaluate Symbolic.lib ["[C][O]"; "[X]"]
    ["[C][C]"; "[C]"] (Some ["validity"; "bleu"; "levenshtein"]) false =
    ([], Ret [("validity", [VBool true; VInt 0]);
              ("bleu", [VFloat "sentence_bleu('CO', 'CC')"; VInt 0]);
              ("levenshtein", [VInt 1; VInt 0])]) /\
  In "levenshtein" ["levenshtein"] /\
  count_occ string_dec ["levenshtein"] "levenshtein" =
    count_occ string_dec ["validity"; "bleu"; "levenshtein"] "levenshtein" /\
  Dict.get "levenshtein"
    ([("levenshtein", [VInt 1; VInt 0])] : table Symbolic.lib) =
  Dict.get "levenshtein"
    ([("validity", [VBool true; VInt 0]);
      ("bleu", [VFloat "sentence_bleu('CO', 'CC')"; VInt 0]);
      ("levenshtein", [VInt 1; VInt 0])] : table Symbolic.lib).
Proof.
  split; [reflexivity |]. split; [reflexivity |].
  split; [left; reflexivity |]. split; [reflexivity |].
  exact (X6_metric_scores_independent Symbolic.lib
           (MoleculeSMILESEvaluator.evaluate Symbolic.lib)
           ["[C][O]"; "[X]"] ["[C][C]"; "[C]"] ["levenshtein"]
           ["validity"; "bleu"; "levenshtein"] false false [] [] _ _
           "levenshtein" (or_introl eq_refl) eq_refl eq_refl
           (or_introl eq_refl) eq_refl).
Defined.

(** ** Rows of the structure evaluator's table *)

(** X7. In a table that the structure evaluator returns for a metrics list
    without repeated names, the scores of the i-th pair stand at position i
    of every list, and if the i-th prediction or the i-th reference fails to
    normalize then position i holds 0 under every requested metric. *)
Theorem X7_null_pair_row_is_zero (L : Library)
  (predictions references : list string) (metrics : option (list string))
  (verbose : bool) (out : list string) (t : table L) (i : nat)
  (pred gt : string) :
  (forall ms, metrics = Some ms -> NoDup ms) ->
  MoleculeSMILESEvaluator.evaluate L predictions references metrics verbose =
    (out, Ret t) ->
  nth_error predictions i = Some pred ->
  nth_error references i = Some gt ->
  fst (MoleculeSMILESEvaluator.build_evaluate_tuple L pred gt) = None \/
  snd (MoleculeSMILESEvaluator.build_evaluate_tuple L pred gt) = None ->
  forall m,
    In m (Score.requested MoleculeSMILESEvaluator.default_metrics metrics) ->
    exists l, Dict.get m t = Some l /\ nth_error l i = Some (VInt 0).
Proof.
  intros Hnd Hcall Hp Hg Hnull m Hm.
  apply smiles_evaluate_Ret in Hcall.
  destruct (run_one_per_pair L _ _ _ _
              (NoDup_requested _ _ NoDup_smiles_default Hnd) Hcall m Hm)
    as (l & Hget & Hl).
  exists l. split; [exact Hget |].
  destruct (Forall2_nth_error _ _ _ Hl i (pred, gt)
              (nth_error_combine _ _ _ _ _ Hp Hg)) as (v & Hv & Hscore).
  rewrite (smiles_pair_null L pred gt Hnull m) in Hscore.
  injection Hscore as <-. exact Hv.
Qed.

(** The second of three pairs has an undecodable prediction. *)
Lemma X7_null_pair_row_is_zero_witness :
  (forall ms, Some ["validity"; "bleu"] = Some ms -> NoDup ms) /\
  MoleculeSMILESEvaluator.evaluate Symbolic.lib ["[C]"; "a?"; "[C][O]"]
    ["[C]"; "[C]"; "[C]"] (Some ["validity"; "bleu"]) false =
    ([], Ret [("validity", [VBool true; VInt 0; VBool true]);
              ("bleu", [VFloat "sentence_bleu('C', 'C')"; VInt 0;
                        VFloat "sentence_bleu('CO', 'C')"])]) /\
  nth_error ["[C]"; "a?"; "[C][O]"] 1 = Some "a?" /\
  nth_error ["[C]"; "[C]"; "[C]"] 1 = Some "[C]" /\
  (fst (MoleculeSMILESEvaluator.build_evaluate_tuple Symbolic.lib "a?" "[C]")
     = None \/
   snd (MoleculeSMILESEvaluator.build_evaluate_tuple Symbolic.lib "a?" "[C]")
     = None) /\
  exists l,
    Dict.get "bleu"
      ([("validity", [VBool true; VInt 0; VBool true]);
        ("bleu", [VFloat "sentence_bleu('C', 'C')"; VInt 0;
                  VFloat "sentence_bleu('CO', 'C')"])] : table Symbolic.lib) =
      Some l /\
    nth_error l 1 = Some (VInt 0).
Proof.
  assert (Hnd : forall ms, Some ["validity"; "bleu"] = Some ms -> NoDup ms).
  { intros ms H. injection H as <-.
    repeat (constructor; [simpl; intuition discriminate |]). constructor. }
  split; [exact Hnd |]. split; [reflexivity |]. split; [reflexivity |].
  split; [reflexivity |]. split; [left; reflexivity |].
  exact (X7_null_pair_row_is_zero Symbolic.lib ["[C]"; "a?"; "[C][O]"]
           ["[C]"; "[C]"; "[C]"] (Some ["validity"; "bleu"]) false [] _ 1
           "a?" "[C]" Hnd eq_refl eq_refl eq_refl (or_introl eq_refl)
           "bleu" (or_intror (or_introl eq_refl))).
Defined.

Lemma Forall2_map_eq {A B : Type} (f : A -> result B) (g : A -> B)
  (xs : list A) (vs : list B) :
  (forall x, In x xs -> f x = Ret (g x)) ->
  Forall2 (fun x v => f x = Ret v) xs vs ->
  vs = map g xs.
Proof.
  intros Hall H. induction H as [| x v xs vs Hv _ IH]; simpl.
  - reflexivity.
  - rewrite (Hall x (or_introl eq_refl)) in Hv. injection Hv as <-.
    rewrite IH; [reflexivity | intros x' Hx'; apply Hall; right; exact Hx'].
Qed.

Lemma smiles_pair_validity (L : Library) (pair : string * string) :
  Score.smiles_pair L pair "validity" =
  Ret (match MoleculeSMILESEvaluator.build_evaluate_tuple L (fst pair)
               (snd pair) with
       | (Some _, Some _) => VBool true
       | _ => VInt 0
       end).
Proof.
  unfold Score.smiles_pair.
  destruct (MoleculeSMILESEvaluator.build_evaluate_tuple L (fst pair) (snd pair))
    as [[p |] [g |]]; reflexivity.
Qed.

(** X8. In a table that the structure evaluator returns for a metrics list
    without repeated names that contains [validity], the [validity] list is,
    pair by pair in input order, [True] where both sides normalized and 0
    where one did not. *)
Theorem X8_validity_column (L : Library)
  (predictions references : list string) (metrics : option (list string))
  (verbose : bool) (out : list string) (t : table L) :
  (forall ms, metrics = Some ms -> NoDup ms) ->
  In "validity"
    (Score.requested MoleculeSMILESEvaluator.default_metrics metrics) ->
  MoleculeSMILESEvaluator.evaluate L predictions references metrics verbose =
    (out, Ret t) ->
  Dict.get "validity" t =
  Some (map (fun pair =>
               match MoleculeSMILESEvaluator.build_evaluate_tuple L (fst pair)
                       (snd pair) with
               | (Some _, Some _) => VBool true
               | _ => VInt 0
               end)
          (combine predictions references)).
Proof.
  intros Hnd Hin Hcall. apply smiles_evaluate_Ret in Hcall.
  destruct (run_one_per_pair L _ _ _ _
              (NoDup_requested _ _ NoDup_smiles_default Hnd) Hcall
              "validity" Hin) as (l & Hget & Hl).
  rewrite Hget. f_equal.
  apply (Forall2_map_eq (fun pair => Score.smiles_pair L pair "validity"));
    [| exact Hl].
  intros pair _. apply smiles_pair_validity.
Qed.

(** With the default metrics on three pairs of which the middle one has a
    prediction that does not parse. *)
Lemma X8_validity_column_witness :
  (forall ms, @None (list string) = Some ms -> NoDup ms) /\
  In "validity"
    (Score.requested MoleculeSMILESEvaluator.default_metrics None) /\
  exists out t,
    MoleculeSMILESEvaluator.evaluate Symbolic.lib ["[C]"; "[X]"; "[C][O]"]
      ["[C]"; "[C]"; "[C]"] None true = (out, Ret t) /\
    Dict.get "validity" t = Some [VBool true; VInt 0; VBool true].
Proof.
  assert (Hnd : forall ms, @None (list string) = Some ms -> NoDup ms)
    by (intros ms H; discriminate H).
  assert (Hin : In "validity"
                  (Score.requested MoleculeSMILESEvaluator.default_metrics None))
    by (do 3 right; left; reflexivity).
  split; [exact Hnd |]. split; [exact Hin |].
  eexists. eexists. split; [reflexivity |].
  exact (X8_validity_column Symbolic.lib ["[C]"; "[X]"; "[C][O]"]
           ["[C]"; "[C]"; "[C]"] None true _ _ Hnd Hin eq_refl).
Defined.

(** ** The keys of the table *)

(** X9. The keys of a table that either evaluator returns are the requested
    names, each once, in the order of their first occurrence in the metrics
    list: for a list without repeated names the keys are that list, and for
    [metrics = None] they are the evaluator's default list. *)
Theorem X9_keys_in_request_order (L : Library)
  (predictions references : list string) (metrics : option (list string))
  (verbose : bool) (out : list string) (t : table L) :
  MoleculeSMILESEvaluator.evaluate L predictions references metrics verbose =
    (out, Ret t) \/
  MoleculeCaptionEvaluator.evaluate L predictions references metrics verbose =
    (out, Ret t) ->
  (forall ms, metrics = Some ms ->
     Dict.keys t = rev (nodup string_dec (rev ms)) /\
     (NoDup ms -> Dict.keys t = ms)) /\
  (metrics = None ->
   (MoleculeSMILESEvaluator.evaluate L predictions references metrics verbose =
      (out, Ret t) ->
    Dict.keys t = MoleculeSMILESEvaluator.default_metrics) /\
   (MoleculeCaptionEvaluator.evaluate L predictions references metrics verbose =
      (out, Ret t) ->
    Dict.keys t = MoleculeCaptionEvaluator.default_metrics)).
Proof.
  intros Hcall.
  assert (Hkeys : forall compute default,
            Score.run compute (Score.requested default metrics)
              (combine predictions references) = Ret t ->
            Dict.keys t =
            rev (nodup string_dec (rev (Score.requested default metrics)))).
  { intros compute default Hrun. rewrite run_closed in Hrun.
    destruct (mapM _ _) as [vss | e]; simpl in Hrun; [| discriminate Hrun].
    injection Hrun as <-. apply keys_tabulate. }
  split.
  - intros ms ->.
    assert (Hk : Dict.keys t = rev (nodup string_dec (rev ms))).
    { destruct Hcall as [Hcall | Hcall].
      - apply smiles_evaluate_Ret in Hcall. exact (Hkeys _ _ Hcall).
      - apply caption_evaluate_Ret in Hcall. exact (Hkeys _ _ Hcall). }
    split; [exact Hk |].
    intros Hnd. rewrite Hk. apply first_occurrences_NoDup, Hnd.
  - intros ->. split; intros H.
    + apply smiles_evaluate_Ret in H. rewrite (Hkeys _ _ H). reflexivity.
    + apply caption_evaluate_Ret in H. rewrite (Hkeys _ _ H). reflexivity.
Qed.

(** [bleu-4] requested before and after [meteor]: the keys are [bleu-4],
    [meteor]. *)
Lemma X9_keys_in_request_order_witness :
  exists t,
    MoleculeCaptionEvaluator.evaluate Symbolic.lib ["a"] ["b"]
      (Some ["bleu-4"; "meteor"; "bleu-4"]) false = ([], Ret t) /\
    Dict.keys t = ["bleu-4"; "meteor"].
Proof.
  eexists. split; [reflexivity |].
  exact (proj1 (proj1 (X9_keys_in_request_order Symbolic.lib ["a"] ["b"]
                         (Some ["bleu-4"; "meteor"; "bleu-4"]) false [] _
                         (or_intror eq_refl))
                  ["bleu-4"; "meteor"; "bleu-4"] eq_refl)).
Defined.

(** ** A name outside the caption evaluator's table *)

(** X10. The caption evaluator looks a metric name up for every pair, so a
    name that is not in its table raises [KeyError] on the first pair,
    whatever the two texts are, as soon as the names listed before it have
    returned on that pair; nothing is printed and no table is returned. *)
Theorem X10_caption_unknown_metric (L : Library) (name : string)
  (before after : list string) (pred gt : string) (ps gs : list string)
  (verbose : bool) :
  Dict.get name (MoleculeCaptionEvaluator._metric_functions L) = None ->
  (forall m, In m before -> returns (Score.caption_pair L (pred, gt) m)) ->
  MoleculeCaptionEvaluator.evaluate L (pred :: ps) (gt :: gs)
    (Some (before ++ name :: after)) verbose = ([], Raise (KeyError name)).
Proof.
  intros Hget Hbefore. rewrite caption_evaluate_run. simpl Score.requested.
  rewrite (scoring_raises L _ _ _ (KeyError name)); [reflexivity |].
  simpl combine.
  apply (mapM_first_raise _ [] (combine ps gs) (pred, gt)).
  - intros a [].
  - apply mapM_first_raise; [exact Hbefore |].
    unfold Score.caption_pair, call_metric, Dict.getitem.
    rewrite Hget. reflexivity.
Qed.

(** [meteor] returns on the first pair and [rouge] is not a key of the
    table. *)
Lemma X10_caption_unknown_metric_witness :
  Dict.get "rouge" (MoleculeCaptionEvaluator._metric_functions Symbolic.lib) =
    None /\
  (forall m, In m ["meteor"] ->
     returns (Score.caption_pair Symbolic.lib ("a", "b") m)) /\
  MoleculeCaptionEvaluator.evaluate Symbolic.lib ("a" :: ["c"]) ("b" :: ["d"])
    (Some (["meteor"] ++ "rouge" :: ["bleu-2"])) true =
    ([], Raise (KeyError "rouge")).
Proof.
  assert (Hget : Dict.get "rouge"
                   (MoleculeCaptionEvaluator._metric_functions Symbolic.lib) =
                 None) by reflexivity.
  assert (Hbefore : forall m, In m ["meteor"] ->
            returns (Score.caption_pair Symbolic.lib ("a", "b") m)).
  { intros m [<- | []]. eexists. reflexivity. }
  split; [exact Hget |]. split; [exact Hbefore |].
  exact (X10_caption_unknown_metric Symbolic.lib "rouge" ["meteor"]
           ["bleu-2"] "a" "b" ["c"] ["d"] true Hget Hbefore).
Defined.

(** ** Exchanging predictions and references *)

Lemma exact_match_sym (L : Library) (a b : string) :
  exact_match L a b = exact_match L b a.
Proof.
  unfold exact_match.
  destruct (MolToInchi L (MolFromSmiles L a)) as [ia | ea];
    destruct (MolToInchi L (MolFromSmiles L b)) as [ib | eb];
    try reflexivity.
  rewrite String.eqb_sym. reflexivity.
Qed.

Lemma combine_swap {A B : Type} (xs : list A) (ys : list B) :
  combine ys xs = map (fun pair => (snd pair, fst pair)) (combine xs ys).
Proof.
  revert ys. induction xs as [| x xs IH]; intros [| y ys]; simpl;
    try reflexivity.
  f_equal. apply IH.
Qed.

Lemma smiles_pair_swap (L : Library) (pair : string * string) (m : string) :
  m = "validity" \/ m = "exact_match" ->
  Score.smiles_pair L (snd pair, fst pair) m = Score.smiles_pair L pair m.
Proof.
  intros Hm. unfold Score.smiles_pair.
  change (fst (snd pair, fst pair)) with (snd pair).
  change (snd (snd pair, fst pair)) with (fst pair).
  unfold MoleculeSMILESEvaluator.build_evaluate_tuple.
  destruct (MoleculeSMILESEvaluator.convert_to_canonical_smiles L
              (MoleculeSMILESEvaluator.sf_encode L (fst pair))) as [p |];
    destruct (MoleculeSMILESEvaluator.convert_to_canonical_smiles L
                (MoleculeSMILESEvaluator.sf_encode L (snd pair))) as [g |];
    try reflexivity.
  destruct Hm as [-> | ->].
  - reflexivity.
  - change (Ret (VInt (exact_match L g p)) =
            Ret (VInt (exact_match L p g)) :> result (value L)).
    rewrite exact_match_sym. reflexivity.
Qed.

(** X11. [validity] and [exact_match] do not tell the prediction from the
    reference: a call of the structure evaluator that requests only these
    two gives the same output and the same table when the list of
    predictions and the list of references are exchanged. *)
Theorem X11_validity_exact_match_symmetric (L : Library)
  (predictions references ms : list string) (verbose : bool) :
  (forall m, In m ms -> m = "validity" \/ m = "exact_match") ->
  MoleculeSMILESEvaluator.evaluate L references predictions (Some ms) verbose =
  MoleculeSMILESEvaluator.evaluate L predictions references (Some ms) verbose.
Proof.
  intros Hms. rewrite !smiles_evaluate_run. simpl Score.requested.
  rewrite !run_closed, combine_swap, mapM_map.
  rewrite (mapM_ext_in
             (fun x => mapM (Score.smiles_pair L (snd x, fst x)) ms)
             (fun pair => mapM (Score.smiles_pair L pair) ms));
    [reflexivity |].
  intros pair _. apply mapM_ext_in. intros m Hm.
  apply smiles_pair_swap, Hms, Hm.
Qed.

(** The two lists exchanged, one of them longer than the other. *)
Lemma X11_validity_exact_match_symmetric_witness :
  (forall m, In m ["exact_match"; "validity"] ->
     m = "validity" \/ m = "exact_match") /\
  MoleculeSMILESEvaluator.evaluate Symbolic.lib ["[C]"; "[C]"; "[C]"]
    ["[C]"; "[X]"] (Some ["exact_match"; "validity"]) false =
    ([], Ret [("exact_match", [VInt 1; VInt 0]);
              ("validity", [VBool true; VInt 0])]) /\
  MoleculeSMILESEvaluator.evaluate Symbolic.lib ["[C]"; "[X]"]
    ["[C]"; "[C]"; "[C]"] (Some ["exact_match"; "validity"]) false =
  MoleculeSMILESEvaluator.evaluate Symbolic.lib ["[C]"; "[C]"; "[C]"]
    ["[C]"; "[X]"] (Some ["exact_match"; "validity"]) false.
Proof.
  assert (Hms : forall m, In m ["exact_match"; "validity"] ->
            m = "validity" \/ m = "exact_match").
  { intros m [<- | [<- | []]]; [right | left]; reflexivity. }
  split; [exact Hms |]. split; [reflexivity |].
  exact (X11_validity_exact_match_symmetric Symbolic.lib ["[C]"; "[C]"; "[C]"]
           ["[C]"; "[X]"] ["exact_match"; "validity"] false Hms).
Defined.

(** ** Metrics that cannot raise *)

(** X12. A call of the structure evaluator that requests only
    [levenshtein], [exact_match] and [validity] always returns a table
    (under [verbose], provided the mean returns): no input string can make
    it raise, and every requested name has one score per pair and per
    occurrence in the metrics list. *)
Theorem X12_safe_metrics_always_return (L : Library)
  (predictions references ms : list string) (verbose : bool) :
  (forall m, In m ms -> In m ["levenshtein"; "exact_match"; "validity"]) ->
  (verbose = true -> forall vs, returns (np_mean L vs)) ->
  exists out t,
    MoleculeSMILESEvaluator.evaluate L predictions references (Some ms)
      verbose = (out, Ret t) /\
    forall m, In m ms ->
      exists l,
        Dict.get m t = Some l /\
        List.length l =
          count_occ string_dec ms m *
          Nat.min (List.length predictions) (List.length references).
Proof.
  intros Hms Hmean.
  destruct (smiles_evaluate_total L predictions references (Some ms) verbose)
    as (out & t & Hcall); [| exact Hmean |].
  { intros pair m _ Hm. apply smiles_pair_total_metrics, Hms, Hm. }
  exists out, t. split; [exact Hcall |].
  intros m Hm. apply smiles_evaluate_Ret in Hcall.
  destruct (run_lengths L _ _ _ _ Hcall m Hm) as (l & Hget & Hl).
  exists l. split; [exact Hget |]. rewrite Hl, length_combine. reflexivity.
Qed.

(** The empty prediction, on which the n-gram scorer would raise, with the
    three safe metrics. *)
Lemma X12_safe_metrics_always_return_witness :
  (forall m, In m ["levenshtein"; "exact_match"; "validity"] ->
     In m ["levenshtein"; "exact_match"; "validity"]) /\
  (false = true -> forall vs, returns (np_mean Symbolic.lib vs)) /\
  exists out t,
    MoleculeSMILESEvaluator.evaluate Symbolic.lib [EmptyString; "a?"]
      ["[C]"; "[C]"] (Some ["levenshtein"; "exact_match"; "validity"]) false =
      (out, Ret t) /\
    forall m, In m ["levenshtein"; "exact_match"; "validity"] ->
      exists l,
        Dict.get m t = Some l /\
        List.length l =
          count_occ string_dec ["levenshtein"; "exact_match"; "validity"] m *
          Nat.min (List.length [EmptyString; "a?"])
            (List.length ["[C]"; "[C]"]).
Proof.
  assert (Hms : forall m, In m ["levenshtein"; "exact_match"; "validity"] ->
            In m ["levenshtein"; "exact_match"; "validity"])
    by (intros m H; exact H).
  assert (Hmean : false = true -> forall vs, returns (np_mean Symbolic.lib vs))
    by (intros H; discriminate H).
  split; [exact Hms |]. split; [exact Hmean |].
  exact (X12_safe_metrics_always_return Symbolic.lib [EmptyString; "a?"]
           ["[C]"; "[C]"] ["levenshtein"; "exact_match"; "validity"] false
           Hms Hmean).
Defined.

(** * The conversion of a conversation *)
Section ConvoFacts.

Variables ROLE_ASSISTANT ROLE_USER : string.

Let convert_message :=
  LlavaBuildPretrainDataset.convert_message ROLE_ASSISTANT ROLE_USER.

Let _convert_convo :=
  LlavaBuildPretrainDataset._convert_convo ROLE_ASSISTANT ROLE_USER.

Lemma foldM_collect {A B : Type} (f : A -> result B) (xs : list A) :
  forall acc,
    foldM (fun ys x => y <- f x ;; Ret (ys ++ [y])) acc xs =
    (ys <- mapM f xs ;; Ret (acc ++ ys)).
Proof.
  induction xs as [| x xs IH]; simpl; intros acc.
  - rewrite app_nil_r. reflexivity.
  - destruct (f x) as [y | e]; simpl; [| reflexivity].
    rewrite IH. destruct (mapM f xs) as [ys | e]; simpl; [| reflexivity].
    rewrite <- app_assoc. reflexivity.
Qed.

Lemma convert_convo_mapM (convo : list LlavaBuildPretrainDataset.message) :
  _convert_convo convo = mapM convert_message convo.
Proof.
  unfold _convert_convo, LlavaBuildPretrainDataset._convert_convo.
  rewrite foldM_collect. fold convert_message.
  destruct (mapM convert_message convo); reflexivity.
Qed.

Lemma convert_message_Ret (m msg : LlavaBuildPretrainDataset.message) :
  convert_message m = Ret msg <->
  exists speaker content,
    Dict.get "from" m = Some speaker /\
    Dict.get "value" m = Some content /\
    ((speaker = "gpt" /\
      msg = [("role", ROLE_ASSISTANT); ("content", content)]) \/
     (speaker = "human" /\
      msg = [("role", ROLE_USER); ("content", content)])).
Proof.
  unfold convert_message, LlavaBuildPretrainDataset.convert_message,
    Dict.getitem.
  destruct (Dict.get "from" m) as [speaker |]; simpl.
  - destruct (String.eqb speaker "gpt") eqn:Hgpt.
    + apply String.eqb_eq in Hgpt. subst speaker.
      destruct (Dict.get "value" m) as [content |]; simpl; split.
      * intros H. injection H as <-. exists "gpt", content.
        repeat split. left. split; reflexivity.
      * intros (s & c & Hs & Hc & [[_ ->] | [Hs' _]]).
        -- injection Hc as <-. reflexivity.
        -- injection Hs as <-. discriminate Hs'.
      * discriminate.
      * intros (s & c & _ & Hc & _). discriminate Hc.
    + destruct (String.eqb speaker "human") eqn:Hhuman.
      * apply String.eqb_eq in Hhuman. subst speaker.
        destruct (Dict.get "value" m) as [content |]; simpl; split.
        -- intros H. injection H as <-. exists "human", content.
           repeat split. right. split; reflexivity.
        -- intros (s & c & Hs & Hc & [[Hs' _] | [_ ->]]).
           ++ injection Hs as <-. discriminate Hs'.
           ++ injection Hc as <-. reflexivity.
        -- discriminate.
        -- intros (s & c & _ & Hc & _). discriminate Hc.
      * split; [discriminate |].
        intros (s & c & Hs & _ & [[-> _] | [-> _]]); injection Hs as ->.
        -- rewrite String.eqb_refl in Hgpt. discriminate Hgpt.
        -- rewrite String.eqb_refl in Hhuman. discriminate Hhuman.
  - split; [discriminate |]. intros (s & c & Hs & _). discriminate Hs.
Qed.

(** X13. [_convert_convo] returns exactly when every message of the
    conversation has a [from] entry that is [gpt] or [human] and a [value]
    entry; the list it returns then has one message per input message, in
    the same order, with the role of the speaker ([ROLE_ASSISTANT] for
    [gpt], [ROLE_USER] for [human]) under [role] and the unchanged value
    under [content]. *)
Theorem X13_convert_convo_maps_messages
  (convo msgs : list LlavaBuildPretrainDataset.message) :
  LlavaBuildPretrainDataset._convert_convo ROLE_ASSISTANT ROLE_USER convo =
    Ret msgs <->
  Forall2
    (fun m msg =>
       exists speaker content,
         Dict.get "from" m = Some speaker /\
         Dict.get "value" m = Some content /\
         ((speaker = "gpt" /\
           msg = [("role", ROLE_ASSISTANT); ("content", content)]) \/
          (speaker = "human" /\
           msg = [("role", ROLE_USER); ("content", content)])))
    convo msgs.
Proof.
  fold _convert_convo. rewrite convert_convo_mapM, mapM_Forall2.
  split; intros H; induction H; constructor; try assumption;
    apply convert_message_Ret; assumption.
Qed.

(** X14. [_convert_convo] stops at the first message that it cannot
    convert, after any number of messages that it can, and raises the
    [KeyError] of that message: of [from] when the message has no [from]
    entry, of the speaker when the speaker is neither [gpt] nor [human],
    and of [value] when the speaker is known and the message has no
    [value] entry. *)
Theorem X14_convert_convo_first_bad_message
  (good rest : list LlavaBuildPretrainDataset.message)
  (m : LlavaBuildPretrainDataset.message) :
  (forall g, In g good ->
     returns (LlavaBuildPretrainDataset.convert_message ROLE_ASSISTANT
                ROLE_USER g)) ->
  (Dict.get "from" m = None ->
   LlavaBuildPretrainDataset._convert_convo ROLE_ASSISTANT ROLE_USER
     (good ++ m :: rest) = Raise (KeyError "from")) /\
  (forall speaker,
     Dict.get "from" m = Some speaker ->
     speaker <> "gpt" -> speaker <> "human" ->
     LlavaBuildPretrainDataset._convert_convo ROLE_ASSISTANT ROLE_USER
       (good ++ m :: rest) = Raise (KeyError speaker)) /\
  (forall speaker,
     Dict.get "from" m = Some speaker ->
     speaker = "gpt" \/ speaker = "human" ->
     Dict.get "value" m = None ->
     LlavaBuildPretrainDataset._convert_convo ROLE_ASSISTANT ROLE_USER
       (good ++ m :: rest) = Raise (KeyError "value")).
Proof.
  intros Hgood. fold _convert_convo. rewrite convert_convo_mapM.
  split; [| split].
  - intros Hfrom. apply mapM_first_raise; [exact Hgood |].
    unfold convert_message, LlavaBuildPretrainDataset.convert_message,
      Dict.getitem.
    rewrite Hfrom. reflexivity.
  - intros speaker Hfrom Hgpt Hhuman.
    apply mapM_first_raise; [exact Hgood |].
    unfold convert_message, LlavaBuildPretrainDataset.convert_message,
      Dict.getitem.
    rewrite Hfrom. simpl.
    apply String.eqb_neq in Hgpt. apply String.eqb_neq in Hhuman.
    rewrite Hgpt, Hhuman. reflexivity.
  - intros speaker Hfrom Hknown Hvalue.
    apply mapM_first_raise; [exact Hgood |].
    unfold convert_message, LlavaBuildPretrainDataset.convert_message,
      Dict.getitem.
    rewrite Hfrom. simpl.
    destruct Hknown as [-> | ->]; simpl; rewrite Hvalue; reflexivity.
Qed.

End ConvoFacts.

(** After one good message, a message of the speaker [system]. *)
Lemma X14_convert_convo_first_bad_message_witness :
  (forall g, In g [[("from", "human"); ("value", "hi")]] ->
     returns (LlavaBuildPretrainDataset.convert_message "assistant" "user" g)) /\
  Dict.get "from" [("from", "system"); ("value", "be kind")] = Some "system" /\
  "system" <> "gpt" /\
  "system" <> "human" /\
  LlavaBuildPretrainDataset._convert_convo "assistant" "user"
    ([[("from", "human"); ("value", "hi")]] ++
     [("from", "system"); ("value", "be kind")] ::
     [[("from", "gpt"); ("value", "hello")]]) =
    Raise (KeyError "system").
Proof.
  assert (Hgood : forall g, In g [[("from", "human"); ("value", "hi")]] ->
            returns (LlavaBuildPretrainDataset.convert_message
                       "assistant" "user" g)).
  { intros g [<- | []]. eexists. reflexivity. }
  assert (Hgpt : "system" <> "gpt") by discriminate.
  assert (Hhuman : "system" <> "human") by discriminate.
  split; [exact Hgood |]. split; [reflexivity |].
  split; [exact Hgpt |]. split; [exact Hhuman |].
  exact (proj1 (proj2 (X14_convert_convo_first_bad_message "assistant" "user"
                         [[("from", "human"); ("value", "hi")]]
                         [[("from", "gpt"); ("value", "hello")]]
                         [("from", "system"); ("value", "be kind")] Hgood))
           "system" eq_refl Hgpt Hhuman).
Defined.

(** * [parse_chat_output] *)
Section ParseFacts.

Import DataTools.

Lemma strip_prefix_Some (p s r : string) :
  strip_prefix p s = Some r <-> s = p +++ r.
Proof.
  revert s. induction p as [| a p IH]; intros s; simpl.
  - split; [intros H; injection H as ->; reflexivity | intros ->; reflexivity].
  - destruct s as [| b s]; [split; discriminate |].
    destruct (Ascii.eqb a b) eqn:Hab.
    + apply Ascii.eqb_eq in Hab. subst b. rewrite IH.
      split; [intros ->; reflexivity | intros H; injection H as ->; reflexivity].
    + apply Ascii.eqb_neq in Hab.
      split; [discriminate | intros H; injection H as -> _; contradiction Hab; reflexivity].
Qed.

Lemma after_marker_Some (marker s rest : string) :
  after_marker marker s = Some rest <->
  exists sep,
    s = marker +++ String sep rest /\ (sep = newline \/ sep = space).
Proof.
  unfold after_marker. split.
  - destruct (strip_prefix marker s) as [[| c r] |] eqn:Hp; try discriminate.
    apply strip_prefix_Some in Hp.
    destruct (Ascii.eqb c newline) eqn:Hn; simpl.
    + intros H. injection H as <-. apply Ascii.eqb_eq in Hn.
      exists c. split; [exact Hp | left; exact Hn].
    + destruct (Ascii.eqb c space) eqn:Hs; [| discriminate].
      intros H. injection H as <-. apply Ascii.eqb_eq in Hs.
      exists c. split; [exact Hp | right; exact Hs].
  - intros (sep & -> & Hsep).
    rewrite (proj2 (strip_prefix_Some marker _ (String sep rest)) eq_refl).
    destruct Hsep as [-> | ->]; reflexivity.
Qed.

Lemma search_output_Some (s rest : string) :
  search_output s = Some rest ->
  exists pre sep,
    s = pre +++ "Output:" +++ String sep rest /\
    (sep = newline \/ sep = space).
Proof.
  induction s as [| c s IH]; [discriminate |].
  cbn [search_output].
  destruct (after_marker "Output:" (String c s)) as [r |] eqn:Hm.
  - intros H. injection H as ->. apply after_marker_Some in Hm.
    destruct Hm as (sep & Hs & Hsep). exists EmptyString, sep.
    split; [exact Hs | exact Hsep].
  - intros H. destruct (IH H) as (pre & sep & -> & Hsep).
    exists (String c pre), sep. split; [reflexivity | exact Hsep].
Qed.

Lemma search_output_None (s : string) :
  search_output s = None ->
  forall pre sep post,
    s = pre +++ "Output:" +++ String sep post ->
    sep = newline \/ sep = space -> False.
Proof.
  induction s as [| c s IH]; intros Hnone pre sep post Hs Hsep.
  - destruct pre; discriminate Hs.
  - cbn [search_output] in Hnone.
    destruct (after_marker "Output:" (String c s)) as [r |] eqn:Hm;
      [discriminate Hnone |].
    destruct pre as [| c' pre].
    + assert (Hsome : after_marker "Output:" (String c s) = Some post).
      { apply after_marker_Some. exists sep. split; assumption. }
      rewrite Hsome in Hm. discriminate Hm.
    + injection Hs as _ Hs. exact (IH Hnone pre sep post Hs Hsep).
Qed.

(** X15. [parse_chat_output] raises [ValueError], naming the style, for
    every style other than [base], whatever the text. With the style [base]
    it returns exactly when the text contains [Output:] followed by a
    newline or a space, and raises [AttributeError] exactly when it does
    not; what it returns has the two keys [output] and [thoughts], and
    [output] is never [None]. *)
Theorem X15_parse_chat_output_errors (output style : string) :
  (style <> "base" ->
   parse_chat_output output style =
     inl (ValueError ("Invalid style: " +++ style))) /\
  (parse_chat_output output "base" = inl AttributeError <->
   ~ exists pre sep post,
       output = pre +++ "Output:" +++ String sep post /\
       (sep = newline \/ sep = space)) /\
  ((exists d, parse_chat_output output "base" = inr d) <->
   exists pre sep post,
     output = pre +++ "Output:" +++ String sep post /\
     (sep = newline \/ sep = space)) /\
  (forall d,
     parse_chat_output output "base" = inr d ->
     Dict.keys d = ["output"; "thoughts"] /\
     exists text, Dict.get "output" d = Some (Some text)).
Proof.
  split; [| split; [| split]].
  - intros Hstyle. unfold parse_chat_output.
    apply String.eqb_neq in Hstyle. rewrite Hstyle. reflexivity.
  - unfold parse_chat_output. simpl String.eqb. cbv iota.
    destruct (search_output output) as [group |] eqn:Hs; split.
    + discriminate.
    + intros Hno. exfalso. apply Hno.
      destruct (search_output_Some _ _ Hs) as (pre & sep & Ho & Hsep).
      exists pre, sep, group. split; assumption.
    + intros _ (pre & sep & post & Ho & Hsep).
      exact (search_output_None _ Hs pre sep post Ho Hsep).
    + reflexivity.
  - unfold parse_chat_output. simpl String.eqb. cbv iota.
    destruct (search_output output) as [group |] eqn:Hs; split.
    + intros _. destruct (search_output_Some _ _ Hs) as (pre & sep & Ho & Hsep).
      exists pre, sep, group. split; assumption.
    + intros _. eexists. reflexivity.
    + intros [d Hd]. discriminate Hd.
    + intros (pre & sep & post & Ho & Hsep). exfalso.
      exact (search_output_None _ Hs pre sep post Ho Hsep).
  - intros d. unfold parse_chat_output. simpl String.eqb. cbv iota.
    destruct (search_output output) as [group |]; [| discriminate].
    intros H. injection H as <-. split; [reflexivity |].
    exists (strip group). reflexivity.
Qed.

Lemma lstrip_head (s r : string) (c : ascii) :
  lstrip s = String c r -> isspace c = false.
Proof.
  induction s as [| a s IH]; simpl; [discriminate |].
  destruct (isspace a) eqn:Ha; [exact IH |].
  intros H. injection H as <- _. exact Ha.
Qed.

Lemma rstrip_head (s r : string) (c : ascii) :
  rstrip s = String c r -> exists r', s = String c r'.
Proof.
  destruct s as [| a s]; simpl; [discriminate |].
  destruct (rstrip s) as [| b t].
  - destruct (isspace a); [discriminate |].
    intros H. injection H as <- _. exists s. reflexivity.
  - intros H. injection H as <- _. exists s. reflexivity.
Qed.

Lemma rstrip_last (s pre : string) (c : ascii) :
  rstrip s = pre +++ String c EmptyString -> isspace c = false.
Proof.
  revert pre. induction s as [| a s IH]; intros pre; simpl.
  - destruct pre; discriminate.
  - destruct (rstrip s) as [| b t] eqn:Hr.
    + destruct (isspace a) eqn:Ha; [destruct pre; discriminate |].
      destruct pre as [| a' pre]; simpl; intros H.
      * injection H as <-. exact Ha.
      * injection H as _ H. destruct pre; discriminate H.
    + destruct pre as [| a' pre]; simpl; intros H.
      * injection H as _ H. discriminate H.
      * injection H as _ H. exact (IH pre H).
Qed.

Lemma strip_clean (s : string) :
  (forall c r, strip s = String c r -> isspace c = false) /\
  (forall pre c, strip s = pre +++ String c EmptyString -> isspace c = false).
Proof.
  unfold strip. split.
  - intros c r H. destruct (rstrip_head _ _ _ H) as [r' Hr'].
    exact (lstrip_head _ _ _ Hr').
  - intros pre c H. exact (rstrip_last _ _ _ H).
Qed.

(** X16. No text that [parse_chat_output] returns, under [output] or under
    [thoughts], starts or ends with a whitespace character. *)
Theorem X16_parsed_fields_are_stripped (output : string)
  (d : Dict.t (option string)) (field text : string) :
  parse_chat_output output "base" = inr d ->
  Dict.get field d = Some (Some text) ->
  (forall c r, text = String c r -> isspace c = false) /\
  (forall pre c, text = pre +++ String c EmptyString -> isspace c = false).
Proof.
  unfold parse_chat_output. simpl String.eqb. cbv iota.
  destruct (search_output output) as [group |]; [| discriminate].
  intros H. injection H as <-. simpl.
  destruct (String.eqb field "output").
  - intros H. injection H as <-. apply strip_clean.
  - destruct (String.eqb field "thoughts"); [| discriminate].
    destruct (search_thoughts output) as [g |]; [| discriminate].
    intros H. injection H as <-. apply strip_clean.
Qed.

(** A text in which blanks surround both fields. *)
Lemma X16_parsed_fields_are_stripped_witness :
  parse_chat_output
    ("Thoughts:  polar  " +++ String newline ("Output:  CCO " +++
       String newline EmptyString)) "base" =
    inr [("output", Some "CCO"); ("thoughts", Some "polar")] /\
  Dict.get "thoughts"
    [("output", Some "CCO"); ("thoughts", Some "polar")] =
    Some (Some "polar") /\
  (forall c r, "polar" = String c r -> isspace c = false) /\
  (forall pre c, "polar" = pre +++ String c EmptyString -> isspace c = false).
Proof.
  split; [reflexivity |]. split; [reflexivity |].
  exact (X16_parsed_fields_are_stripped
           ("Thoughts:  polar  " +++ String newline ("Output:  CCO " +++
              String newline EmptyString))
           [("output", Some "CCO"); ("thoughts", Some "polar")]
           "thoughts" "polar" eq_refl eq_refl).
Defined.

End ParseFacts.

Section ParseRoundTrip.

Import DataTools.

Lemma contains_char_cons (c a : ascii) (p : string) :
  contains_text (String c EmptyString) (String a p) =
  Ascii.eqb c a || contains_text (String c EmptyString) p.
Proof.
  unfold contains_text at 1. cbn [strip_prefix]. fold contains_text.
  destruct (Ascii.eqb c a); reflexivity.
Qed.

Lemma strip_prefix_app_None (p s t : string) :
  contains_text (String newline EmptyString) p = false ->
  strip_prefix p s = None ->
  strip_prefix p (s +++ String newline t) = None.
Proof.
  revert s. induction p as [| a p IH]; intros s Hp Hs.
  - discriminate Hs.
  - rewrite contains_char_cons in Hp. apply orb_false_elim in Hp.
    destruct Hp as [Ha Hp].
    destruct s as [| b s]; cbn [String.append strip_prefix] in *.
    + rewrite Ascii.eqb_sym, Ha. reflexivity.
    + destruct (Ascii.eqb a b); [| reflexivity].
      apply IH; assumption.
Qed.

Lemma search_output_skip (th t : string) :
  contains_text "Output:" th = false ->
  search_output (th +++ String newline t) = search_output (String newline t).
Proof.
  induction th as [| c th IH]; intros Hth; [reflexivity |].
  change (String c th +++ String newline t)
    with (String c (th +++ String newline t)).
  cbn [search_output].
  unfold contains_text in Hth. fold contains_text in Hth.
  destruct (strip_prefix "Output:" (String c th)) as [r |] eqn:Hp;
    [discriminate Hth |].
  unfold after_marker.
  change (String c (th +++ String newline t))
    with (String c th +++ String newline t).
  rewrite (strip_prefix_app_None "Output:" (String c th) t eq_refl Hp).
  apply IH, Hth.
Qed.

Lemma until_newline_app (th rest : string) :
  contains_text (String newline EmptyString) th = false ->
  until_newline (th +++ String newline rest) = Some th.
Proof.
  induction th as [| c th IH]; intros Hth.
  - cbn [String.append until_newline]. rewrite Ascii.eqb_refl. reflexivity.
  - rewrite contains_char_cons in Hth. apply orb_false_elim in Hth.
    destruct Hth as [Hc Hth].
    cbn [String.append until_newline].
    rewrite Ascii.eqb_sym, Hc, (IH Hth). reflexivity.
Qed.

(** X17. A text laid out as [Thoughts: ], the thoughts, a newline,
    [Output: ] and the answer is parsed back into its two parts, each
    stripped of the whitespace around it, as long as the thoughts contain
    no newline and not the text [Output:]; the answer may contain
    anything. *)
Theorem X17_parse_chat_output_round_trip (thoughts answer : string) :
  contains_text (String newline EmptyString) thoughts = false ->
  contains_text "Output:" thoughts = false ->
  parse_chat_output
    ("Thoughts: " +++ thoughts +++ String newline ("Output: " +++ answer))
    "base" =
  inr [("output", Some (strip answer)); ("thoughts", Some (strip thoughts))].
Proof.
  intros Hnl Hout. unfold parse_chat_output. simpl String.eqb. cbv iota.
  assert (Hth : search_thoughts
                  ("Thoughts: " +++ thoughts +++
                   String newline ("Output: " +++ answer)) = Some thoughts).
  { cbn [String.append search_thoughts after_marker strip_prefix Ascii.eqb
         Bool.eqb orb newline space].
    rewrite (until_newline_app thoughts _ Hnl). reflexivity. }
  assert (Hans : search_output
                   ("Thoughts: " +++ thoughts +++
                    String newline ("Output: " +++ answer)) = Some answer).
  { cbn [String.append].
    do 10 (cbn [search_output]; unfold after_marker at 1;
           cbn [strip_prefix Ascii.eqb Bool.eqb]).
    rewrite (search_output_skip thoughts _ Hout).
    cbn [search_output]; unfold after_marker at 1;
      cbn [strip_prefix Ascii.eqb Bool.eqb newline].
    reflexivity. }
  rewrite Hth, Hans. reflexivity.
Qed.

(** Thoughts with blanks around them and an answer of two lines. *)
Lemma X17_parse_chat_output_round_trip_witness :
  contains_text (String newline EmptyString) " polar, so  " = false /\
  contains_text "Output:" " polar, so  " = false /\
  parse_chat_output
    ("Thoughts: " +++ " polar, so  " +++
     String newline ("Output: " +++ ("CCO" +++ String newline "or water ")))
    "base" =
  inr [("output", Some (strip ("CCO" +++ String newline "or water ")));
       ("thoughts", Some (strip " polar, so  "))].
Proof.
  split; [reflexivity |]. split; [reflexivity |].
  exact (X17_parse_chat_output_round_trip " polar, so  "
           ("CCO" +++ String newline "or water ") eq_refl eq_refl).
Defined.

End ParseRoundTrip.
